(** * Fine-tuning scripts of the text2sql package: model and properties

    A shallow embedding of [finetune_sql.py] (full supervised
    fine-tuning) and [finetune_mlx.py] (LoRA adapters on Apple Silicon).

    Python values are modelled as follows: [str] as [string], [int] as
    [Z], [len] as [nat], [dict] with string keys as [gmap string _],
    [list] as [list], [None]-or-value as [option].  A [float] is only
    ever passed through by the scripts and is carried as the rational
    its decimal literal denotes.  Everything the scripts obtain from the
    machine they run on (platform facts, file contents, subprocess
    outcomes, library calls) is read from a record of the surrounding
    world, so that each function below is a plain function of it. *)

From stdpp Require Import base option list strings gmap pretty.
From Stdlib Require Import Ascii ZArith QArith Lia.

Local Open Scope Z_scope.

(** ** Pieces of the Python runtime the scripts rely on *)
Module Py.

(** The exception classes that occur, with their base class. *)
Inductive exn_class :=
| BaseException | Exception | SystemExit_ | RuntimeError | LookupError
| KeyError_ | IndexError | OSError | FileNotFoundError | ValueError
| SubprocessError | CalledProcessError_.

Global Instance exn_class_eq_dec : EqDecision exn_class.
Proof. solve_decision. Defined.

(** Method resolution order: the class followed by all its ancestors. *)
Definition mro (c : exn_class) : list exn_class :=
  match c with
  | BaseException => [BaseException]
  | Exception => [Exception; BaseException]
  | SystemExit_ => [SystemExit_; BaseException]
  | RuntimeError => [RuntimeError; Exception; BaseException]
  | LookupError => [LookupError; Exception; BaseException]
  | KeyError_ => [KeyError_; LookupError; Exception; BaseException]
  | IndexError => [IndexError; LookupError; Exception; BaseException]
  | OSError => [OSError; Exception; BaseException]
  | FileNotFoundError => [FileNotFoundError; OSError; Exception; BaseException]
  | ValueError => [ValueError; Exception; BaseException]
  | SubprocessError => [SubprocessError; Exception; BaseException]
  | CalledProcessError_ =>
      [CalledProcessError_; SubprocessError; Exception; BaseException]
  end.

Definition issubclass (c d : exn_class) : bool := bool_decide (d ∈ mro c).

(** Exception objects.  [Raised c msg] is any other exception, given
    by its class and its [str()]. *)
Inductive exn :=
| SystemExit (code : Z)
| CalledProcessError (returncode : Z) (cmd : list string)
| KeyError (key : string)
| Raised (c : exn_class) (msg : string).

Definition class_of (e : exn) : exn_class :=
  match e with
  | SystemExit _ => SystemExit_
  | CalledProcessError _ _ => CalledProcessError_
  | KeyError _ => KeyError_
  | Raised c _ => c
  end.

Definition isinstance (e : exn) (c : exn_class) : bool :=
  issubclass (class_of e) c.

(** A computation returns a value or raises. *)
Inductive result (A : Type) :=
| Ok (a : A)
| Raise (e : exn).
Global Arguments Ok {A} a.
Global Arguments Raise {A} e.

Global Instance result_ret : MRet result := λ A a, Ok a.
Global Instance result_bind : MBind result := λ A B f r,
  match r with Ok a => f a | Raise e => Raise e end.

(** Exit status of the interpreter once [main()] has finished: [0]
    after a normal return, the code of an uncaught [SystemExit], and
    [1] after any other uncaught exception. *)
Definition exit_status {A} (r : result A) : Z :=
  match r with
  | Ok _ => 0
  | Raise (SystemExit code) => code
  | Raise _ => 1
  end.

(** [for x in xs: f(x)] collecting the results, stopping at the first
    exception. *)
Fixpoint for_each {A B} (f : A → result B) (xs : list A) : result (list B) :=
  match xs with
  | [] => Ok []
  | x :: xs' => y ← f x; ys ← for_each f xs'; mret (y :: ys)
  end.

(** [d[key]] on a dict with string keys. *)
Definition getitem {V} (d : gmap string V) (key : string) : result V :=
  match d !! key with
  | Some v => Ok v
  | None => Raise (KeyError key)
  end.

(** Truth value of an [int | None] and of a [str | None]. *)
Definition truthy (o : option Z) : bool :=
  match o with
  | Some n => negb (Z.eqb n 0)
  | None => false
  end.

Definition truthy_str (o : option string) : bool :=
  match o with
  | Some s => negb (String.eqb s "")
  | None => false
  end.

(** [xs[:k]]: a negative [k] counts from the end. *)
Definition slice_to {A} (k : Z) (xs : list A) : list A :=
  if Z.ltb k 0 then take (Z.to_nat (Z.of_nat (length xs) + k)) xs
  else take (Z.to_nat k) xs.

(** [range(n)]. *)
Definition range (n : Z) : list Z := seqZ 0 n.

(** [min(a, b)] on ints. *)
Definition min (a b : Z) : Z := if Z.ltb b a then b else a.

(** The line-feed character and [s * n]. *)
Definition nl : string := String "010"%char "".

Fixpoint str_mul (s : string) (n : nat) : string :=
  match n with
  | O => ""
  | S n' => s +:+ str_mul s n'
  end.

(** [sep.join(parts)]. *)
Fixpoint join (sep : string) (parts : list string) : string :=
  match parts with
  | [] => ""
  | [p] => p
  | p :: rest => p +:+ sep +:+ join sep rest
  end.

(** [pat in s] on strings. *)
Fixpoint contains (pat s : string) : bool :=
  if String.prefix pat s then true
  else match s with
       | "" => false
       | String _ s' => contains pat s'
       end.

(** [str.isspace] on one character (code points below 256). *)
Definition isspace (c : ascii) : bool :=
  let n := nat_of_ascii c in
  ((9 <=? n) && (n <=? 13) || (28 <=? n) && (n <=? 32)
   || (n =? 133) || (n =? 160))%nat.

Fixpoint lstrip (s : string) : string :=
  match s with
  | "" => ""
  | String c s' => if isspace c then lstrip s' else s
  end.

Definition strip (s : string) : string :=
  String.rev (lstrip (String.rev (lstrip s))).

(** Truth value of a [str]. *)
Definition nonempty (s : string) : bool := negb (String.eqb s "").

(** [str(bool)]. *)
Definition str_bool (b : bool) : string := if b then "True" else "False".

(** [posixpath.join(a, b)], also used for [Path(a) / b]. *)
Definition path_join (a b : string) : string :=
  if String.prefix "/" b then b
  else if String.eqb a "" || String.eqb (String.substring (String.length a - 1)%nat 1 a) "/"
       then a +:+ b
       else a +:+ "/" +:+ b.

End Py.

(** ** Effects: what a run prints and does

    A run threads the text written to standard output and to standard
    error (one entry per write) and the list of actions performed on the
    outside world.  The two streams are kept apart: in
    [_run_with_filtered_stderr] they are written by two different
    threads, each owning one stream, so only the order within a stream
    is determined. *)
Module Run.
Import Py.

(** Actions on the outside world; [Lib x] is a call into a library
    specific to one script. *)
Inductive action (X : Type) :=
| Mkdir (path : string)
| Makedirs (path : string)
| Urlretrieve (url dest : string)
| Spawn (cmd : list string) (env : list (string * string))
| ReadFile (path : string)
| WriteFile (path : string) (chunks : list string)
| LoadHub (name split : string)
| Lib (x : X).
Global Arguments Mkdir {X} path.
Global Arguments Makedirs {X} path.
Global Arguments Urlretrieve {X} url dest.
Global Arguments Spawn {X} cmd env.
Global Arguments ReadFile {X} path.
Global Arguments WriteFile {X} path chunks.
Global Arguments LoadHub {X} name split.
Global Arguments Lib {X} x.

Record io (X : Type) := Io {
  stdout : list string;
  stderr : list string;
  actions : list (action X);
}.
Global Arguments Io {X} stdout stderr actions.
Global Arguments stdout {X} i.
Global Arguments stderr {X} i.
Global Arguments actions {X} i.

Definition M (X A : Type) : Type := io X → result A * io X.

Global Instance M_ret {X} : MRet (M X) := λ A a s, (Ok a, s).
Global Instance M_bind {X} : MBind (M X) := λ A B f m s,
  match m s with
  | (Ok a, s') => f a s'
  | (Raise e, s') => (Raise e, s')
  end.

Definition raise {X A} (e : exn) : M X A := λ s, (Raise e, s).

Definition lift {X A} (r : result A) : M X A := λ s, (r, s).

Definition write_stdout {X} (text : string) : M X () := λ s,
  (Ok (), Io (stdout s ++ [text]) (stderr s) (actions s)).

Definition write_stderr {X} (text : string) : M X () := λ s,
  (Ok (), Io (stdout s) (stderr s ++ [text]) (actions s)).

(** [print(text)] and [print()]. *)
Definition print {X} (text : string) : M X () := write_stdout (text +:+ nl).

(** Performs an action; the world decides whether it raises. *)
Definition perform {X} (fails : action X → option exn) (a : action X) : M X () :=
  λ s,
    (match fails a with None => Ok () | Some e => Raise e end,
     Io (stdout s) (stderr s) (actions s ++ [a])).

(** [try: body  except c as e: handler(e)]. *)
Definition try_except {X A} (body : M X A) (c : exn_class)
    (handler : exn → M X A) : M X A := λ s,
  match body s with
  | (Ok a, s') => (Ok a, s')
  | (Raise e, s') => if isinstance e c then handler e s' else (Raise e, s')
  end.

(** [for x in xs: body(x)]. *)
Fixpoint for_ {X A} (xs : list A) (body : A → M X ()) : M X () :=
  match xs with
  | [] => mret ()
  | x :: xs' => body x ;; for_ xs' body
  end.

(** The initial state of a run. *)
Definition start {X} : io X := Io [] [] [].

(** A finished subprocess: what it wrote and how it exited. *)
Record process := {
  proc_stdout : list string;
  proc_stderr : list string;
  proc_returncode : Z;
}.

(** The machine and the interpreter the script runs on. *)
Record host := {
  platform_system : string;
  platform_machine : string;
  sys_executable : string;
  script_dir : string;                      (* Path(__file__).parent *)
  abspath : string → string;                (* os.path.abspath *)
  dirname : string → string;                (* os.path.dirname *)
  basename : string → string;               (* os.path.basename *)
  path_exists : string → bool;
  (* the subprocess started for a command line and extra environment;
     [None] when the executable cannot be started *)
  spawn : list string → list (string * string) → option process;
  str_float : Q → string;                   (* str(x) of a float *)
  (* str(e) of an exception object that carries structured data *)
  render_exn : exn → string;
}.

(** [str(e)]. *)
Definition str_exn (h : host) (e : exn) : string :=
  match e with
  | Raised _ msg => msg
  | _ => render_exn h e
  end.

(** Starts a subprocess and waits for it; raises when the executable
    cannot be started. *)
Definition run_process {X} (h : host) (cmd : list string)
    (env : list (string * string)) : M X process :=
  perform (λ _, None) (Spawn cmd env) ;;
  match spawn h cmd env with
  | Some p => mret p
  | None => raise (Raised FileNotFoundError (default "" (head cmd)))
  end.

(** [subprocess.run(cmd, check=True)]. *)
Definition subprocess_run_check {X} (h : host) (cmd : list string) : M X () :=
  p ← run_process h cmd [];
  if negb (Z.eqb (proc_returncode p) 0)
  then raise (CalledProcessError (proc_returncode p) cmd)
  else mret ().

End Run.

(** ** Data shared by the two scripts *)
Module Data.

(** A raw row of the sql-create-context data: a dict from column name
    ("context", "question", "answer") to text. *)
Abbreviation Example := (gmap string string) (only parsing).

(** One turn of a conversation: [{"role": ..., "content": ...}]. *)
Record message := Message { role : string; content : string }.

(** The indices kept by [Dataset.select(indices)]; an index outside
    the table raises. *)
Definition select {A} (dataset : list A) (indices : list Z) : Py.result (list A) :=
  Py.for_each
    (λ i, match (if Z.ltb i 0 then None else dataset !! Z.to_nat i) with
          | Some x => Py.Ok x
          | None => Py.Raise (Py.Raised Py.IndexError (pretty i))
          end)
    indices.

End Data.

(** ** finetune_sql.py *)
Module FinetuneSql.
Import Py Run Data.

Definition DOCKER_IMAGE : string := "ghcr.io/ggml-org/llama.cpp:full".
Definition CONVERT_SCRIPT_URL : string :=
  "https://raw.githubusercontent.com/ggml-org/llama.cpp/master/convert_hf_to_gguf.py".

(** The dict returned by [get_device_info]. *)
Module DeviceInfo.
Record t := Make {
  device : string;
  bf16 : bool;
  fp16 : bool;
  default_batch_size : Z;
  gradient_checkpointing : bool;
}.
End DeviceInfo.

(** The keyword arguments given to [SFTConfig]. *)
Module SFTConfig.
Record t := Make {
  output_dir : string;
  num_train_epochs : Z;
  per_device_train_batch_size : Z;
  per_device_eval_batch_size : Z;
  gradient_accumulation_steps : Z;
  gradient_checkpointing : bool;
  learning_rate : Q;
  bf16 : bool;
  fp16 : bool;
  logging_steps : Z;
  save_strategy : string;
  eval_strategy : string;
  max_length : Z;
  warmup_ratio : Q;
  lr_scheduler_type : string;
  report_to : string;
  dataloader_pin_memory : bool;
}.
End SFTConfig.

(** What the command line gives: an option left out is [None]. *)
Module Cli.
Record t := Make {
  epochs : option Z;
  batch_size : option Z;
  lr : option Q;
  output_dir : option string;
  max_samples : option Z;
  input : option string;
  use_hf : bool;
  model : option string;
  eval_split : option Q;
  no_gguf : bool;
  gguf_type : option string;
}.
End Cli.

(** The namespace returned by [parser.parse_args()]. *)
Module Args.
Record t := Make {
  epochs : Z;
  batch_size : Z;
  lr : Q;
  output_dir : string;
  max_samples : option Z;
  input : option string;
  use_hf : bool;
  model : string;
  eval_split : Q;
  no_gguf : bool;
  gguf_type : string;
}.
End Args.

(** The record produced by [format_for_sft]. *)
Record sft_record := SftRecord {
  prompt : list message;
  completion : list message;
}.

(** A parsed line of a JSONL training file. *)
#[warnings="-register-all"]
Inductive json :=
| JNull
| JBool (b : bool)
| JNumber (literal : string)
| JString (s : string)
| JArray (items : list json)
| JObject (members : list (string * json)).

(** A row of the dataset handed to the trainer. *)
Inductive row :=
| Parsed (j : json)
| Formatted (r : sft_record).

(** Calls into the training libraries. *)
Inductive lib_call :=
| TrainTestSplit (n : nat) (test_size : Q) (seed : Z)
| SFTTrainer (model : string) (args : SFTConfig.t)
    (train_dataset eval_dataset : list row)
| Train
| SaveModel (path : string)
| SavePretrained (attribute path : string).

Record world := {
  os : host;
  mps_is_available : bool;                  (* torch.backends.mps *)
  cuda_is_available : bool;                 (* torch.cuda *)
  (* whether an action raises, and what *)
  fails : action lib_call → option exn;
  (* the lines of a text file, as iterating over the open file gives them *)
  file_lines : string → list string;
  json_loads : string → result json;
  (* json.load of the file at a path *)
  json_load : string → result (gmap string (list (gmap string Example)));
  (* the "train" split of b-mc2/sql-create-context *)
  hub_rows : list Example;
  train_test_split : list row → Q → Z → list row * list row;
  has_processing_class : bool;
  has_tokenizer : bool;
}.

Definition get_convert_script (w : world) : M lib_call string :=
  let cache_dir := path_join (script_dir (os w)) ".cache" in
  perform (fails w) (Mkdir cache_dir) ;;
  let script_path := path_join cache_dir "convert_hf_to_gguf.py" in
  (if negb (path_exists (os w) script_path)
   then print ("Downloading conversion script from " +:+ CONVERT_SCRIPT_URL +:+ "...") ;;
        perform (fails w) (Urlretrieve CONVERT_SCRIPT_URL script_path)
   else mret ()) ;;
  mret script_path.

Definition filter_patterns : list string :=
  [ "incorrect regex pattern";
    "huggingface/tokenizers: The current process just got forked";
    "To disable this warning";
    "Avoid using `tokenizers` before the fork";
    "Explicitly set the environment variable TOKENIZERS_PARALLELISM" ].

Definition _run_with_filtered_stderr (w : world) (cmd : list string)
    (env : list (string * string)) : M lib_call () :=
  proc ← run_process (os w) cmd env;
  (* the relay thread *)
  for_ (proc_stdout proc) (λ line, write_stdout line) ;;
  (* the calling thread *)
  for_ (proc_stderr proc) (λ line,
    if negb (existsb (λ pattern, contains pattern line) filter_patterns)
    then write_stderr line
    else mret ()) ;;
  if negb (Z.eqb (proc_returncode proc) 0)
  then raise (CalledProcessError (proc_returncode proc) cmd)
  else mret ().

Definition convert_to_gguf (w : world) (model_path output_path quantization : string)
    : M lib_call string :=
  let model_path := abspath (os w) model_path in
  let output_path := abspath (os w) output_path in
  perform (fails w) (Makedirs (dirname (os w) output_path)) ;;
  let env := [ ("TOKENIZERS_PARALLELISM", "false");
               ("TRANSFORMERS_VERBOSITY", "error");
               ("HF_HUB_DISABLE_PROGRESS_BARS", "1");
               ("PYTHONWARNINGS", "ignore") ] in
  let is_arm := bool_decide (platform_machine (os w) ∈ ["arm64"; "aarch64"]) in
  probe ← run_process (os w) ["docker"; "--version"] [];
  let docker_available := Z.eqb (proc_returncode probe) 0 in
  (if docker_available && negb is_arm
   then
     let output_dir := dirname (os w) output_path in
     let output_name := basename (os w) output_path in
     let cmd := [ "docker"; "run"; "--rm";
                  "-e"; "TOKENIZERS_PARALLELISM=false";
                  "-e"; "TRANSFORMERS_VERBOSITY=error";
                  "-v"; model_path +:+ ":/model:ro";
                  "-v"; output_dir +:+ ":/output";
                  DOCKER_IMAGE;
                  "python3"; "/app/convert_hf_to_gguf.py";
                  "/model";
                  "--outfile"; "/output/" +:+ output_name;
                  "--outtype"; quantization ] in
     print ("Using Docker image: " +:+ DOCKER_IMAGE) ;;
     _run_with_filtered_stderr w cmd env
   else
     script_path ← get_convert_script w;
     print ("Using local conversion script: " +:+ script_path) ;;
     let venv_python :=
       path_join (path_join (path_join (script_dir (os w)) ".venv") "bin") "python" in
     let python_cmd :=
       if path_exists (os w) venv_python then venv_python else "python3" in
     let cmd := [ python_cmd;
                  "-W"; "ignore::UserWarning";
                  script_path;
                  model_path;
                  "--outfile"; output_path;
                  "--outtype"; quantization ] in
     _run_with_filtered_stderr w cmd env) ;;
  mret output_path.

Definition get_device_info (w : world) : DeviceInfo.t :=
  let is_mac := String.eqb (platform_system (os w)) "Darwin" in
  let has_mps := is_mac && mps_is_available w in
  let has_cuda := cuda_is_available w in
  if has_mps then
    {| DeviceInfo.device := "mps";
       DeviceInfo.bf16 := false;
       DeviceInfo.fp16 := false;
       DeviceInfo.default_batch_size := 2;
       DeviceInfo.gradient_checkpointing := true |}
  else if has_cuda then
    {| DeviceInfo.device := "cuda";
       DeviceInfo.bf16 := true;
       DeviceInfo.fp16 := false;
       DeviceInfo.default_batch_size := 4;
       DeviceInfo.gradient_checkpointing := false |}
  else
    {| DeviceInfo.device := "cpu";
       DeviceInfo.bf16 := false;
       DeviceInfo.fp16 := false;
       DeviceInfo.default_batch_size := 1;
       DeviceInfo.gradient_checkpointing := true |}.

Definition load_jsonl_dataset (w : world) (path : string) (max_samples : option Z)
    : M lib_call (list json) :=
  perform (fails w) (ReadFile path) ;;
  data ← lift (for_each (json_loads w)
                 (List.filter (λ line, nonempty (strip line)) (file_lines w path)));
  let data := if truthy max_samples
              then slice_to (default 0 max_samples) data else data in
  mret data.

Definition load_local_dataset (w : world) (json_path : string)
    (max_samples : option Z) : M lib_call (list Example) :=
  perform (fails w) (ReadFile json_path) ;;
  data ← lift (json_load w json_path);
  rows ← lift (getitem data "rows");
  let rows := if truthy max_samples
              then slice_to (default 0 max_samples) rows else rows in
  lift (for_each (λ row, getitem row "row") rows).

Definition load_hf_dataset (w : world) (max_samples : option Z)
    : M lib_call (list Example) :=
  perform (fails w) (LoadHub "b-mc2/sql-create-context" "train") ;;
  let dataset := hub_rows w in
  if truthy max_samples
  then lift (select dataset
               (range (min (default 0 max_samples) (Z.of_nat (length dataset)))))
  else mret dataset.

Definition format_for_sft (example : Example) : result sft_record :=
  context ← getitem example "context";
  question ← getitem example "question";
  let prompt := "Given the following SQL schema:" +:+ nl +:+ context +:+ nl +:+ nl
                +:+ "Write a SQL query to answer: " +:+ question in
  answer ← getitem example "answer";
  mret {| prompt := [ {| role := "user"; content := prompt |} ];
          completion := [ {| role := "assistant"; content := answer |} ] |}.

Definition parse_args (device_info : DeviceInfo.t) (cli : Cli.t) : Args.t :=
  {| Args.epochs := default 3 (Cli.epochs cli);
     Args.batch_size :=
       default (DeviceInfo.default_batch_size device_info) (Cli.batch_size cli);
     Args.lr := default (2 # 100000) (Cli.lr cli);
     Args.output_dir := default "./.finetune/qwen3-sql" (Cli.output_dir cli);
     Args.max_samples := Cli.max_samples cli;
     Args.input := Cli.input cli;
     Args.use_hf := Cli.use_hf cli;
     Args.model := default "Qwen/Qwen3-0.6B" (Cli.model cli);
     Args.eval_split := default (1 # 10) (Cli.eval_split cli);
     Args.no_gguf := Cli.no_gguf cli;
     Args.gguf_type := default "q8_0" (Cli.gguf_type cli) |}.

(** The [SFTConfig(...)] call of [main]. *)
Definition training_args (args : Args.t) (device_info : DeviceInfo.t) : SFTConfig.t :=
  {| SFTConfig.output_dir := Args.output_dir args;
     SFTConfig.num_train_epochs := Args.epochs args;
     SFTConfig.per_device_train_batch_size := Args.batch_size args;
     SFTConfig.per_device_eval_batch_size := Args.batch_size args;
     SFTConfig.gradient_accumulation_steps := 4;
     SFTConfig.gradient_checkpointing := DeviceInfo.gradient_checkpointing device_info;
     SFTConfig.learning_rate := Args.lr args;
     SFTConfig.bf16 := DeviceInfo.bf16 device_info;
     SFTConfig.fp16 := DeviceInfo.fp16 device_info;
     SFTConfig.logging_steps := 10;
     SFTConfig.save_strategy := "no";
     SFTConfig.eval_strategy := "no";
     SFTConfig.max_length := 512;
     SFTConfig.warmup_ratio := 1 # 10;
     SFTConfig.lr_scheduler_type := "cosine";
     SFTConfig.report_to := "none";
     SFTConfig.dataloader_pin_memory :=
       negb (String.eqb (DeviceInfo.device device_info) "mps") |}.

(** [dataset.map(format_for_sft, remove_columns=[...])]. *)
Definition map_format_for_sft (dataset : list Example) : M lib_call (list row) :=
  lift (for_each (λ example, r ← format_for_sft example; mret (Formatted r)) dataset).

(** [main], from the banner to the saved model (lines 254-348);
    returns [final_path]. *)
Definition main_train (w : world) (device_info : DeviceInfo.t) (args : Args.t)
    : M lib_call string :=
  print (str_mul "=" 50) ;;
  print "Full Supervised Fine-Tuning (SFT)" ;;
  print (str_mul "=" 50) ;;
  print "" ;;
  print ("Device: " +:+ DeviceInfo.device device_info) ;;
  print ("Model: " +:+ Args.model args) ;;
  print ("Epochs: " +:+ pretty (Args.epochs args)) ;;
  print ("Batch size: " +:+ pretty (Args.batch_size args)) ;;
  print ("Learning rate: " +:+ str_float (os w) (Args.lr args)) ;;
  print ("Output: " +:+ Args.output_dir args) ;;
  print ("Max samples: " +:+
         (if truthy (Args.max_samples args)
          then pretty (default 0 (Args.max_samples args)) else "all")) ;;
  print ("bf16: " +:+ str_bool (DeviceInfo.bf16 device_info)) ;;
  print ("Gradient checkpointing: " +:+
         str_bool (DeviceInfo.gradient_checkpointing device_info)) ;;
  print "" ;;
  dataset ←
    (if truthy_str (Args.input args) then
       let input := default "" (Args.input args) in
       print ("Loading dataset from " +:+ input +:+ "...") ;;
       dataset ← load_jsonl_dataset w input (Args.max_samples args);
       print ("Loaded " +:+ pretty (length dataset) +:+ " examples") ;;
       mret (Parsed <$> dataset)
     else if Args.use_hf args then
       print "Loading dataset from HuggingFace..." ;;
       dataset ← load_hf_dataset w (Args.max_samples args);
       print ("Loaded " +:+ pretty (length dataset) +:+ " examples") ;;
       print "Formatting dataset for SFT..." ;;
       map_format_for_sft dataset
     else
       let json_path :=
         path_join (path_join (path_join (dirname (os w) (script_dir (os w))) "evals")
                      "sql-create-context") "sql-create-context.json" in
       print ("Loading dataset from " +:+ json_path +:+ "...") ;;
       dataset ← load_local_dataset w json_path (Args.max_samples args);
       print ("Loaded " +:+ pretty (length dataset) +:+ " examples") ;;
       print "Formatting dataset for SFT..." ;;
       map_format_for_sft dataset);
  perform (fails w)
    (Lib (TrainTestSplit (length dataset) (Args.eval_split args) 42)) ;;
  let splits := train_test_split w dataset (Args.eval_split args) 42 in
  print ("Train: " +:+ pretty (length splits.1) +:+ " examples") ;;
  print ("Eval: " +:+ pretty (length splits.2) +:+ " examples") ;;
  print "" ;;
  print "Initializing trainer (full fine-tuning, all weights)..." ;;
  perform (fails w)
    (Lib (SFTTrainer (Args.model args) (training_args args device_info)
            splits.1 splits.2)) ;;
  print "Starting training..." ;;
  print "" ;;
  perform (fails w) (Lib Train) ;;
  let final_path := Args.output_dir args +:+ "-final" in
  print ("Saving model to " +:+ final_path +:+ "...") ;;
  perform (fails w) (Lib (SaveModel final_path)) ;;
  (if has_processing_class w
   then perform (fails w) (Lib (SavePretrained "processing_class" final_path))
   else if has_tokenizer w
   then perform (fails w) (Lib (SavePretrained "tokenizer" final_path))
   else mret ()) ;;
  mret final_path.

(** [main], from the GGUF conversion to the end (lines 350-385). *)
Definition main_convert_and_report (w : world) (args : Args.t) (final_path : string)
    : M lib_call () :=
  gguf_path ←
    (if negb (Args.no_gguf args) then
       let gguf_path := final_path +:+ ".gguf" in
       print "" ;;
       print "Converting to GGUF format..." ;;
       try_except
         (convert_to_gguf w final_path gguf_path (Args.gguf_type args) ;;
          print ("GGUF model saved to: " +:+ abspath (os w) gguf_path) ;;
          mret (Some gguf_path))
         RuntimeError
         (λ e,
            print ("Warning: GGUF conversion failed: " +:+ str_exn (os w) e) ;;
            mret None)
     else mret None);
  print "" ;;
  print (str_mul "=" 50) ;;
  print "Training complete!" ;;
  print ("Model saved to: " +:+ abspath (os w) final_path) ;;
  (if truthy_str gguf_path
   then print ("GGUF model: " +:+ abspath (os w) (default "" gguf_path))
   else mret ()) ;;
  print (str_mul "=" 50) ;;
  print "" ;;
  print "Next steps - Use your fine-tuned model:" ;;
  print "" ;;
  (if truthy_str gguf_path then
     let gguf := abspath (os w) (default "" gguf_path) in
     print "  LMStudio:" ;;
     print ("    lms import " +:+ gguf +:+ " --user-repo local/qwen3-sql") ;;
     print "    lms load local/qwen3-sql --gpu max" ;;
     print "" ;;
     print "  Ollama:" ;;
     print ("    echo 'FROM " +:+ gguf +:+ "' > Modelfile") ;;
     print "    ollama create qwen3-sql -f Modelfile" ;;
     print "    ollama run qwen3-sql"
   else
     print "  Convert to GGUF manually:" ;;
     print ("    node packages/text2sql/src/finetune/convert-to-gguf.ts "
            +:+ final_path +:+ " " +:+ final_path +:+ ".gguf")) ;;
  print "".

Definition main (w : world) (cli : Cli.t) : M lib_call () :=
  let device_info := get_device_info w in
  let args := parse_args device_info cli in
  final_path ← main_train w device_info args;
  main_convert_and_report w args final_path.

End FinetuneSql.

(** ** finetune_mlx.py *)
Module FinetuneMlx.
Import Py Run Data.

Module Cli.
Record t := Make {
  iters : option Z;
  batch_size : option Z;
  lr : option Q;
  output_dir : option string;
  max_samples : option Z;
  use_hf : bool;
  model : option string;
  num_layers : option Z;
  eval_split : option Q;
  no_gguf : bool;
}.
End Cli.

Module Args.
Record t := Make {
  iters : Z;
  batch_size : Z;
  lr : Q;
  output_dir : string;
  max_samples : option Z;
  use_hf : bool;
  model : string;
  num_layers : Z;
  eval_split : Q;
  no_gguf : bool;
}.
End Args.

(** The record produced by [to_chat_format]. *)
Record chat_record := ChatRecord { messages : list message }.

Inductive lib_call :=
| TrainTestSplit (n : nat) (test_size : Q) (seed : Z).

Record world := {
  os : host;
  fails : action lib_call → option exn;
  json_load : string → result (gmap string (list (gmap string Example)));
  hub_rows : list Example;
  train_test_split : list chat_record → Q → Z → list chat_record * list chat_record;
  json_dumps : chat_record → string;
}.

Definition check_apple_silicon (w : world) : M lib_call () :=
  (if negb (String.eqb (platform_system (os w)) "Darwin") then
     print (str_mul "=" 60) ;;
     print "ERROR: Not running on macOS" ;;
     print (str_mul "=" 60) ;;
     print "" ;;
     print "MLX requires macOS with Apple Silicon (M1/M2/M3/M4)." ;;
     print "" ;;
     print "For other platforms, use:" ;;
     print "  - Linux/Windows with NVIDIA GPU: finetune_sql.py" ;;
     print "" ;;
     raise (SystemExit 1)
   else mret ()) ;;
  if negb (bool_decide (platform_machine (os w) ∈ ["arm64"; "aarch64"])) then
    print (str_mul "=" 60) ;;
    print "WARNING: Not running on Apple Silicon" ;;
    print (str_mul "=" 60) ;;
    print "" ;;
    print "MLX works best on Apple Silicon (M1/M2/M3/M4)." ;;
    print "Performance on Intel Macs will be limited." ;;
    print ""
  else mret ().

(** The loading block of [prepare_data] (lines 64-79). *)
Definition prepare_data_load (w : world) (max_samples : option Z) (use_hf : bool)
    : M lib_call (list Example) :=
  if use_hf then
    print "Loading dataset from HuggingFace..." ;;
    perform (fails w) (LoadHub "b-mc2/sql-create-context" "train") ;;
    let dataset := hub_rows w in
    if truthy max_samples
    then lift (select dataset
                 (range (min (default 0 max_samples) (Z.of_nat (length dataset)))))
    else mret dataset
  else
    let json_path :=
      path_join (path_join (path_join (dirname (os w) (script_dir (os w))) "evals")
                   "sql-create-context") "sql-create-context.json" in
    print ("Loading dataset from " +:+ json_path +:+ "...") ;;
    perform (fails w) (ReadFile json_path) ;;
    data ← lift (json_load w json_path);
    rows ← lift (getitem data "rows");
    let rows := if truthy max_samples
                then slice_to (default 0 max_samples) rows else rows in
    lift (for_each (λ row, getitem row "row") rows).

Definition to_chat_format (example : Example) : result chat_record :=
  context ← getitem example "context";
  question ← getitem example "question";
  let user_content :=
    "Given the following SQL schema:" +:+ nl +:+ context +:+ nl +:+ nl
    +:+ "Write a SQL query to answer: " +:+ question in
  answer ← getitem example "answer";
  mret {| messages := [ {| role := "user"; content := user_content |};
                        {| role := "assistant"; content := answer |} ] |}.

Definition prepare_data (w : world) (output_dir : string) (max_samples : option Z)
    (use_hf : bool) (eval_split : Q) : M lib_call string :=
  dataset ← prepare_data_load w max_samples use_hf;
  print ("Loaded " +:+ pretty (length dataset) +:+ " examples") ;;
  print "Converting to chat format..." ;;
  dataset ← lift (for_each to_chat_format dataset);
  perform (fails w) (Lib (TrainTestSplit (length dataset) eval_split 42)) ;;
  let splits := train_test_split w dataset eval_split 42 in
  print ("Train: " +:+ pretty (length splits.1) +:+ " examples") ;;
  print ("Valid: " +:+ pretty (length splits.2) +:+ " examples") ;;
  let data_dir := path_join output_dir "data" in
  perform (fails w) (Makedirs data_dir) ;;
  let train_path := path_join data_dir "train.jsonl" in
  let valid_path := path_join data_dir "valid.jsonl" in
  perform (fails w)
    (WriteFile train_path ((λ example, json_dumps w example +:+ nl) <$> splits.1)) ;;
  perform (fails w)
    (WriteFile valid_path ((λ example, json_dumps w example +:+ nl) <$> splits.2)) ;;
  print ("Data saved to " +:+ data_dir) ;;
  mret data_dir.

Definition run_training (w : world) (model data_dir output_dir : string)
    (iters batch_size : Z) (learning_rate : Q) (num_layers : Z) : M lib_call string :=
  let adapter_path := path_join output_dir "adapters" in
  let cmd := [ sys_executable (os w); "-m"; "mlx_lm.lora";
               "--model"; model;
               "--train";
               "--data"; data_dir;
               "--adapter-path"; adapter_path;
               "--iters"; pretty iters;
               "--batch-size"; pretty batch_size;
               "--learning-rate"; str_float (os w) learning_rate;
               "--num-layers"; pretty num_layers ] in
  print "" ;;
  print ("Running: " +:+ join " " cmd) ;;
  print "" ;;
  subprocess_run_check (os w) cmd ;;
  mret adapter_path.

Definition fuse_and_export (w : world) (model adapter_path output_dir : string)
    (export_gguf : bool) : M lib_call (string * option string) :=
  let fused_path := path_join output_dir "fused_model" in
  let cmd := [ sys_executable (os w); "-m"; "mlx_lm.fuse";
               "--model"; model;
               "--adapter-path"; adapter_path;
               "--save-path"; fused_path ] in
  let cmd := if export_gguf then (cmd ++ ["--export-gguf"])%list else cmd in
  print "" ;;
  print ("Running: " +:+ join " " cmd) ;;
  print "" ;;
  subprocess_run_check (os w) cmd ;;
  let gguf_path :=
    if export_gguf then
      let potential_gguf := path_join fused_path "ggml-model-f16.gguf" in
      if path_exists (os w) potential_gguf then Some potential_gguf else None
    else None in
  mret (fused_path, gguf_path).

Definition parse_args (cli : Cli.t) : Args.t :=
  {| Args.iters := default 1000 (Cli.iters cli);
     Args.batch_size := default 4 (Cli.batch_size cli);
     Args.lr := default (1 # 100000) (Cli.lr cli);
     Args.output_dir := default "./qwen3-sql-mlx" (Cli.output_dir cli);
     Args.max_samples := Cli.max_samples cli;
     Args.use_hf := Cli.use_hf cli;
     Args.model := default "Qwen/Qwen3-0.5B" (Cli.model cli);
     Args.num_layers := default 16 (Cli.num_layers cli);
     Args.eval_split := default (1 # 10) (Cli.eval_split cli);
     Args.no_gguf := Cli.no_gguf cli |}.

(** [main], from the banner to the end of training (lines 206-247);
    returns [adapter_path]. *)
Definition main_prepare_and_train (w : world) (args : Args.t) : M lib_call string :=
  print (str_mul "=" 60) ;;
  print "MLX Fine-Tuning (Apple Silicon)" ;;
  print (str_mul "=" 60) ;;
  print "" ;;
  print ("Platform: " +:+ platform_system (os w) +:+ " " +:+ platform_machine (os w)) ;;
  print ("Model: " +:+ Args.model args) ;;
  print ("Iterations: " +:+ pretty (Args.iters args)) ;;
  print ("Batch size: " +:+ pretty (Args.batch_size args)) ;;
  print ("Learning rate: " +:+ str_float (os w) (Args.lr args)) ;;
  print ("LoRA layers: " +:+ pretty (Args.num_layers args)) ;;
  print ("Output: " +:+ Args.output_dir args) ;;
  print ("Max samples: " +:+
         (if truthy (Args.max_samples args)
          then pretty (default 0 (Args.max_samples args)) else "all")) ;;
  print "" ;;
  perform (fails w) (Makedirs (Args.output_dir args)) ;;
  print (str_mul "=" 40) ;;
  print "Step 1: Preparing data" ;;
  print (str_mul "=" 40) ;;
  data_dir ← prepare_data w (Args.output_dir args) (Args.max_samples args)
               (Args.use_hf args) (Args.eval_split args);
  print "" ;;
  print (str_mul "=" 40) ;;
  print "Step 2: Training with LoRA" ;;
  print (str_mul "=" 40) ;;
  run_training w (Args.model args) data_dir (Args.output_dir args)
    (Args.iters args) (Args.batch_size args) (Args.lr args) (Args.num_layers args).

(** [main], from step 3 to the end (lines 249-286). *)
Definition main_fuse_and_report (w : world) (args : Args.t) (adapter_path : string)
    : M lib_call () :=
  print "" ;;
  print (str_mul "=" 40) ;;
  print ("Step 3: Fusing adapters" +:+
         (if negb (Args.no_gguf args) then " and exporting GGUF" else "")) ;;
  print (str_mul "=" 40) ;;
  '(fused_path, gguf_path) ←
    fuse_and_export w (Args.model args) adapter_path (Args.output_dir args)
      (negb (Args.no_gguf args));
  print "" ;;
  print (str_mul "=" 60) ;;
  print "Training complete!" ;;
  print (str_mul "=" 60) ;;
  print "" ;;
  print ("Adapters:    " +:+ abspath (os w) adapter_path) ;;
  print ("Fused model: " +:+ abspath (os w) fused_path) ;;
  (if truthy_str gguf_path
   then print ("GGUF model:  " +:+ abspath (os w) (default "" gguf_path))
   else mret ()) ;;
  print "" ;;
  print "Next steps - Use your fine-tuned model:" ;;
  print "" ;;
  (if truthy_str gguf_path then
     let gguf := abspath (os w) (default "" gguf_path) in
     print "  LMStudio:" ;;
     print ("    lms import " +:+ gguf +:+ " --user-repo local/qwen3-sql-mlx") ;;
     print "    lms load local/qwen3-sql-mlx --gpu max" ;;
     print "" ;;
     print "  Ollama:" ;;
     print ("    echo 'FROM " +:+ gguf +:+ "' > Modelfile") ;;
     print "    ollama create qwen3-sql-mlx -f Modelfile" ;;
     print "    ollama run qwen3-sql-mlx"
   else
     print "  Generate with MLX:" ;;
     print ("    mlx_lm.generate --model " +:+ fused_path +:+ " --prompt 'Your prompt'")) ;;
  print "".

Definition main (w : world) (cli : Cli.t) : M lib_call () :=
  check_apple_silicon w ;;
  let args := parse_args cli in
  adapter_path ← main_prepare_and_train w args;
  main_fuse_and_report w args adapter_path.

End FinetuneMlx.


(** ** Concrete worlds, for evaluating the scripts *)
Module Sample.
Import Py Run Data.

(** A machine where every path is already absolute, nothing exists on
    disk, [docker --version] succeeds, and every other command exits
    with [returncode] after writing [err] to its standard error. *)
Definition machine (system arch : string) (err : list string) (returncode : Z) : host :=
  {| platform_system := system;
     platform_machine := arch;
     sys_executable := "/usr/bin/python3";
     script_dir := "/repo/src/finetune";
     abspath := λ path, path;
     dirname := λ path, "/repo/out";
     basename := λ path, "model.gguf";
     path_exists := λ path, false;
     spawn := λ cmd env,
       Some (if bool_decide (cmd = ["docker"; "--version"])
             then {| proc_stdout := []; proc_stderr := []; proc_returncode := 0 |}
             else {| proc_stdout := []; proc_stderr := err;
                     proc_returncode := returncode |});
     str_float := λ x, "0.1";
     render_exn := λ e, "error" |}.

Definition example (context question answer : string) : Example :=
  {[ "context" := context; "question" := question; "answer" := answer ]}.

Definition three_rows : list Example :=
  [ example "CREATE TABLE a (x INT)" "How many rows?" "SELECT COUNT(*) FROM a";
    example "CREATE TABLE b (y INT)" "Largest y?" "SELECT MAX(y) FROM b";
    example "CREATE TABLE c (z INT)" "Smallest z?" "SELECT MIN(z) FROM c" ].

(** The local JSON document holding [rows]. *)
Definition document (rows : list Example)
    : gmap string (list (gmap string Example)) :=
  {[ "rows" := (λ r, {[ "row" := r ]}) <$> rows ]}.

Definition sql_world (h : host) (mps cuda : bool) : FinetuneSql.world :=
  {| FinetuneSql.os := h;
     FinetuneSql.mps_is_available := mps;
     FinetuneSql.cuda_is_available := cuda;
     FinetuneSql.fails := λ a, None;
     FinetuneSql.file_lines := λ path, ["{}" +:+ nl; nl; "{}" +:+ nl; "{}"];
     FinetuneSql.json_loads := λ line, Ok (FinetuneSql.JObject []);
     FinetuneSql.json_load := λ path, Ok (document three_rows);
     FinetuneSql.hub_rows := three_rows;
     FinetuneSql.train_test_split := λ rows test_size seed, (drop 1 rows, take 1 rows);
     FinetuneSql.has_processing_class := true;
     FinetuneSql.has_tokenizer := false |}.

Definition sql_cli (max_samples : option Z) (input : option string) (use_hf : bool)
    : FinetuneSql.Cli.t :=
  {| FinetuneSql.Cli.epochs := None;
     FinetuneSql.Cli.batch_size := None;
     FinetuneSql.Cli.lr := None;
     FinetuneSql.Cli.output_dir := None;
     FinetuneSql.Cli.max_samples := max_samples;
     FinetuneSql.Cli.input := input;
     FinetuneSql.Cli.use_hf := use_hf;
     FinetuneSql.Cli.model := None;
     FinetuneSql.Cli.eval_split := None;
     FinetuneSql.Cli.no_gguf := false;
     FinetuneSql.Cli.gguf_type := None |}.

Definition mlx_world (h : host) : FinetuneMlx.world :=
  {| FinetuneMlx.os := h;
     FinetuneMlx.fails := λ a, None;
     FinetuneMlx.json_load := λ path, Ok (document three_rows);
     FinetuneMlx.hub_rows := three_rows;
     FinetuneMlx.train_test_split := λ rows test_size seed, (drop 1 rows, take 1 rows);
     FinetuneMlx.json_dumps := λ r, "{}" |}.

Definition mlx_cli (max_samples : option Z) (use_hf : bool) : FinetuneMlx.Cli.t :=
  {| FinetuneMlx.Cli.iters := None;
     FinetuneMlx.Cli.batch_size := None;
     FinetuneMlx.Cli.lr := None;
     FinetuneMlx.Cli.output_dir := None;
     FinetuneMlx.Cli.max_samples := max_samples;
     FinetuneMlx.Cli.use_hf := use_hf;
     FinetuneMlx.Cli.model := None;
     FinetuneMlx.Cli.num_layers := None;
     FinetuneMlx.Cli.eval_split := None;
     FinetuneMlx.Cli.no_gguf := false |}.

End Sample.


(** ** Notions used to state the properties *)
Module Notions.
Import Py Run Data.

(** The pair of precision flags of a device profile. *)
Definition precision_flags (d : FinetuneSql.DeviceInfo.t) : bool * bool :=
  (FinetuneSql.DeviceInfo.bf16 d, FinetuneSql.DeviceInfo.fp16 d).

(** The first [min(cap, N)] of [N] rows, in their order. *)
Definition first_rows {A} (cap : Z) (rows : list A) : list A :=
  take (Z.to_nat (Z.min cap (Z.of_nat (length rows)))) rows.

(** The state of a run after it has performed [acts] and printed nothing. *)
Definition after {X} (s : io X) (acts : list (action X)) : io X :=
  Io (stdout s) (stderr s) (actions s ++ acts).

(** The state of a run after it has written [out] to standard output,
    [err] to standard error and performed [acts]. *)
Definition extended {X} (s : io X) (out err : list string) (acts : list (action X))
    : io X :=
  Io (stdout s ++ out) (stderr s ++ err) (actions s ++ acts).

(** Every action [m] performs satisfies [P]. *)
Definition only_performs {X A} (P : action X → Prop) (m : M X A) : Prop :=
  ∀ s a, a ∈ actions (m s).2 → a ∈ actions s ∨ P a.

(** The text [print] writes for each of [lines]. *)
Definition printed (lines : list string) : list string :=
  (λ line, line +:+ nl) <$> lines.

(** The (schema, question, answer) triple of a raw example. *)
Definition triple (example : Example) : option string * option string * option string :=
  (example !! "context", example !! "question", example !! "answer").

(** The text between the schema and the question in a prompt. *)
Definition separator : string := nl +:+ nl +:+ "Write a SQL query to answer: ".

(** A raw example is well formed when it has the three columns. *)
Definition well_formed (example : Example) : Prop :=
  is_Some (example !! "context") ∧ is_Some (example !! "question") ∧
  is_Some (example !! "answer").

(** The schema text of an example does not contain the separator. *)
Definition plain_schema (example : Example) : Prop :=
  ∀ context, example !! "context" = Some context →
    contains separator context = false.

(** The prompt built from a schema and a question. *)
Definition prompt_of (context question : string) : string :=
  "Given the following SQL schema:" +:+ nl +:+ context +:+ separator +:+ question.

(** A line of the converter's standard error is benign when it
    contains one of the fixed substrings. *)
Definition benign (line : string) : Prop :=
  ∃ pattern before after,
    pattern ∈ FinetuneSql.filter_patterns ∧ line = before +:+ pattern +:+ after.

(** [forwards lines out]: [out] is [lines] with exactly the benign
    lines left out, the others unchanged and in their order. *)
Inductive forwards : list string → list string → Prop :=
| forwards_nil : forwards [] []
| forwards_drop line lines out :
    benign line → forwards lines out → forwards (line :: lines) out
| forwards_keep line lines out :
    ¬ benign line → forwards lines out → forwards (line :: lines) (line :: out).

(** The fused-model directory of a run of the adapter script, and the
    command line of its fuse step when GGUF export is requested. *)
Definition fused_model_dir (args : FinetuneMlx.Args.t) : string :=
  path_join (FinetuneMlx.Args.output_dir args) "fused_model".

Definition fuse_command (w : FinetuneMlx.world) (args : FinetuneMlx.Args.t)
    (adapter_path : string) : list string :=
  [ sys_executable (FinetuneMlx.os w); "-m"; "mlx_lm.fuse";
    "--model"; FinetuneMlx.Args.model args;
    "--adapter-path"; adapter_path;
    "--save-path"; fused_model_dir args;
    "--export-gguf" ].

(** The rows a JSONL file holds: its non-blank lines, parsed. *)
Definition jsonl_rows (w : FinetuneSql.world) (path : string)
    (rows : list FinetuneSql.json) : Prop :=
  FinetuneSql.fails w (ReadFile path) = None ∧
  for_each (FinetuneSql.json_loads w)
    (List.filter (λ line, nonempty (strip line)) (FinetuneSql.file_lines w path))
  = Ok rows.

(** The rows a parsed local JSON document holds: the "row" entry of each
    item of its "rows" list. *)
Definition document_rows (data : result (gmap string (list (gmap string Example))))
    (rows : list Example) : Prop :=
  ∃ d items, data = Ok d ∧ d !! "rows" = Some items ∧
    for_each (λ item, getitem item "row") items = Ok rows.

Definition local_rows (w : FinetuneSql.world) (path : string) (rows : list Example)
    : Prop :=
  FinetuneSql.fails w (ReadFile path) = None ∧
  document_rows (FinetuneSql.json_load w path) rows.

Definition registry_rows (w : FinetuneSql.world) (rows : list Example) : Prop :=
  FinetuneSql.fails w (LoadHub "b-mc2/sql-create-context" "train") = None ∧
  FinetuneSql.hub_rows w = rows.

(** The path of the local JSON document, as both scripts compute it. *)
Definition local_json_path (h : host) : string :=
  path_join (path_join (path_join (dirname h (script_dir h)) "evals")
               "sql-create-context") "sql-create-context.json".

Definition mlx_local_rows (w : FinetuneMlx.world) (rows : list Example) : Prop :=
  FinetuneMlx.fails w (ReadFile (local_json_path (FinetuneMlx.os w))) = None ∧
  document_rows (FinetuneMlx.json_load w (local_json_path (FinetuneMlx.os w))) rows.

Definition mlx_registry_rows (w : FinetuneMlx.world) (rows : list Example) : Prop :=
  FinetuneMlx.fails w (LoadHub "b-mc2/sql-create-context" "train") = None ∧
  FinetuneMlx.hub_rows w = rows.

End Notions.


(** ** Further notions and worlds, for the remaining properties *)
Module Outlook.
Import Py Run Data Notions.

(** A line consists of whitespace only. *)
Fixpoint whitespace_only (line : string) : bool :=
  match line with
  | "" => true
  | String c rest => isspace c && whitespace_only rest
  end.

(** All but the last [k] rows. *)
Definition without_last {A} (k : nat) (rows : list A) : list A :=
  take (length rows - k) rows.

(** The environment the converter is started with. *)
Definition conversion_env : list (string * string) :=
  [ ("TOKENIZERS_PARALLELISM", "false");
    ("TRANSFORMERS_VERBOSITY", "error");
    ("HF_HUB_DISABLE_PROGRESS_BARS", "1");
    ("PYTHONWARNINGS", "ignore") ].

(** Where the converter script is cached. *)
Definition cache_dir (h : host) : string := path_join (script_dir h) ".cache".

Definition cached_script (h : host) : string :=
  path_join (cache_dir h) "convert_hf_to_gguf.py".

(** The interpreter of the local converter. *)
Definition venv_python (h : host) : string :=
  path_join (path_join (path_join (script_dir h) ".venv") "bin") "python".

(** The command lines of the containerized and of the local converter. *)
Definition docker_command (h : host) (model_path output_path quantization : string)
    : list string :=
  [ "docker"; "run"; "--rm";
    "-e"; "TOKENIZERS_PARALLELISM=false";
    "-e"; "TRANSFORMERS_VERBOSITY=error";
    "-v"; abspath h model_path +:+ ":/model:ro";
    "-v"; dirname h (abspath h output_path) +:+ ":/output";
    "ghcr.io/ggml-org/llama.cpp:full";
    "python3"; "/app/convert_hf_to_gguf.py";
    "/model";
    "--outfile"; "/output/" +:+ basename h (abspath h output_path);
    "--outtype"; quantization ].

Definition local_command (h : host) (model_path output_path quantization : string)
    : list string :=
  [ (if path_exists h (venv_python h) then venv_python h else "python3");
    "-W"; "ignore::UserWarning";
    cached_script h;
    abspath h model_path;
    "--outfile"; abspath h output_path;
    "--outtype"; quantization ].

(** The standard-error lines of a process that pass the filter. *)
Definition passed (p : process) : list string :=
  List.filter
    (λ line, negb (existsb (λ pattern, contains pattern line)
                     FinetuneSql.filter_patterns))
    (proc_stderr p).

(** The command line of the adapter trainer. *)
Definition training_command (w : FinetuneMlx.world) (args : FinetuneMlx.Args.t)
    (data_dir : string) : list string :=
  [ sys_executable (FinetuneMlx.os w); "-m"; "mlx_lm.lora";
    "--model"; FinetuneMlx.Args.model args;
    "--train";
    "--data"; data_dir;
    "--adapter-path"; path_join (FinetuneMlx.Args.output_dir args) "adapters";
    "--iters"; pretty (FinetuneMlx.Args.iters args);
    "--batch-size"; pretty (FinetuneMlx.Args.batch_size args);
    "--learning-rate"; str_float (FinetuneMlx.os w) (FinetuneMlx.Args.lr args);
    "--num-layers"; pretty (FinetuneMlx.Args.num_layers args) ].

(** The command line of the fuse step. *)
Definition fuse_command_for (w : FinetuneMlx.world) (model adapter_path output_dir : string)
    (export_gguf : bool) : list string :=
  [ sys_executable (FinetuneMlx.os w); "-m"; "mlx_lm.fuse";
    "--model"; model;
    "--adapter-path"; adapter_path;
    "--save-path"; path_join output_dir "fused_model" ]
  ++ (if export_gguf then ["--export-gguf"] else []).

(** A machine given by what exists on its disk and how its commands end. *)
Definition machine_with (system arch : string) (on_disk : string → bool)
    (commands : list string → option process) : host :=
  {| platform_system := system;
     platform_machine := arch;
     sys_executable := "/usr/bin/python3";
     script_dir := "/repo/src/finetune";
     abspath := λ path, path;
     dirname := λ path, "/repo/out";
     basename := λ path, "model.gguf";
     path_exists := on_disk;
     spawn := λ cmd env, commands cmd;
     str_float := λ x, "1e-05";
     render_exn := λ e, "error" |}.

(** A process that wrote [out] and [err] and exited with [returncode]. *)
Definition finished (out err : list string) (returncode : Z) : process :=
  {| proc_stdout := out; proc_stderr := err; proc_returncode := returncode |}.

(** A world of the full-finetune script on machine [h] where the
    actions in [failing] raise and the JSONL file holds [lines]. *)
Definition sql_world_with (h : host) (failing : action FinetuneSql.lib_call → option exn)
    (lines : list string) (loads : string → result FinetuneSql.json)
    (data : result (gmap string (list (gmap string Example))))
    : FinetuneSql.world :=
  {| FinetuneSql.os := h;
     FinetuneSql.mps_is_available := false;
     FinetuneSql.cuda_is_available := true;
     FinetuneSql.fails := failing;
     FinetuneSql.file_lines := λ path, lines;
     FinetuneSql.json_loads := loads;
     FinetuneSql.json_load := λ path, data;
     FinetuneSql.hub_rows := Sample.three_rows;
     FinetuneSql.train_test_split := λ rows test_size seed, (drop 1 rows, take 1 rows);
     FinetuneSql.has_processing_class := true;
     FinetuneSql.has_tokenizer := false |}.

End Outlook.


(** * Properties *)

#[local] Arguments String.append : simpl nomatch.

(** ** Strings *)
Section strings.
Import Py.

Lemma append_inv_head (a b c : string) : a +:+ b = a +:+ c → b = c.
Proof. induction a as [|x a IH]; simpl; [done | intros [= H]; auto]. Qed.

Lemma prefix_true (p s : string) :
  String.prefix p s = true ↔ ∃ rest, s = p +:+ rest.
Proof.
  revert s. induction p as [|x p IH]; intros s.
  - split; [eauto | by destruct s].
  - destruct s as [|y s]; simpl.
    + split; [done | intros [rest [=]]].
    + destruct (Ascii.ascii_dec x y) as [->|Hne]; simpl.
      * rewrite IH. split; intros [rest H]; exists rest; congruence.
      * split; [done | intros [rest [= ? ?]]; done].
Qed.

Lemma contains_unfold (p s : string) :
  contains p s =
  if String.prefix p s then true
  else match s with "" => false | String _ s' => contains p s' end.
Proof. by destruct s. Qed.

(** [contains] decides the substring relation. *)
Lemma contains_true (p s : string) :
  contains p s = true ↔ ∃ before after, s = before +:+ p +:+ after.
Proof.
  induction s as [|y s IH]; rewrite contains_unfold;
    destruct (String.prefix p _) eqn:Hp.
  - split; [intros _ | done].
    apply prefix_true in Hp as [rest ->]. by exists "", rest.
  - split; [done | intros (before & after & H)].
    destruct before as [|x before]; [|done]. simpl in H.
    assert (String.prefix p "" = true) as Hp'; [|congruence].
    apply prefix_true. eauto.
  - split; [intros _ | done].
    apply prefix_true in Hp as [rest Hp]. by exists "", rest.
  - rewrite IH. split.
    + intros (before & after & ->). by exists (String y before), after.
    + intros (before & after & H). destruct before as [|x before]; simpl in H.
      * assert (String.prefix p (String y s) = true) as ?; [|congruence].
        apply prefix_true. eauto.
      * injection H as -> ->. eauto.
Qed.

Lemma contains_tail (p : string) (c : ascii) (s : string) :
  contains p (String c s) = false → contains p s = false.
Proof. rewrite contains_unfold. by destruct (String.prefix p (String c s)). Qed.

End strings.

(** ** Slices, ranges and selections *)
Section slices.
Import Py Data.
Context {A : Type}.
Implicit Types (xs : list A) (k : Z).

Lemma slice_to_nonneg k xs :
  0 ≤ k → slice_to k xs = take (Z.to_nat (Py.min k (Z.of_nat (length xs)))) xs.
Proof.
  intros Hk. unfold slice_to, Py.min.
  destruct (Z.ltb_spec k 0); [lia|].
  destruct (Z.ltb_spec (Z.of_nat (length xs)) k).
  - rewrite Nat2Z.id, firstn_all. apply take_ge. lia.
  - done.
Qed.

Lemma for_each_lookup xs (n : nat) (i0 : nat) :
  (i0 + n ≤ length xs)%nat →
  for_each
    (λ i, match (if Z.ltb i 0 then None else xs !! Z.to_nat i) with
          | Some x => Ok x
          | None => Raise (Raised IndexError (pretty i))
          end)
    (seqZ (Z.of_nat i0) (Z.of_nat n))
  = Ok (take n (drop i0 xs)).
Proof.
  revert i0. induction n as [|n IH]; intros i0 Hlen.
  - by rewrite seqZ_nil by lia.
  - rewrite seqZ_cons by lia. simpl for_each.
    destruct (Z.ltb_spec (Z.of_nat i0) 0); [lia|].
    rewrite Nat2Z.id.
    destruct (xs !! i0) as [x|] eqn:Hx; [|apply lookup_ge_None in Hx; lia].
    replace (Z.succ (Z.of_nat i0)) with (Z.of_nat (S i0)) by lia.
    replace (Z.pred (Z.of_nat (S n))) with (Z.of_nat n) by lia.
    cbn. rewrite IH by lia. cbn.
    by rewrite (drop_S _ _ _ Hx).
Qed.

(** Selecting [range(n)] with [n] within the table keeps the first [n]
    rows, in order. *)
Lemma select_range xs (n : Z) :
  n ≤ Z.of_nat (length xs) → select xs (range n) = Ok (take (Z.to_nat n) xs).
Proof.
  intros Hn. unfold select, range.
  destruct (Z.le_gt_cases n 0).
  - rewrite seqZ_nil by lia. by replace (Z.to_nat n) with 0%nat by lia.
  - replace n with (Z.of_nat (Z.to_nat n)) at 1 by lia.
    change 0 with (Z.of_nat 0). rewrite for_each_lookup by lia. done.
Qed.

End slices.

(** ** Running the effects *)
Section running.
Import Py Run Notions.
Context {X : Type}.

Lemma run_bind {A B} (m : M X A) (f : A → M X B) (s : io X) :
  (m ≫= f) s =
  match m s with
  | (Ok a, s') => f a s'
  | (Raise e, s') => (Raise e, s')
  end.
Proof. done. Qed.

Lemma run_bind_ok {A B} (m : M X A) (f : A → M X B) (s s' : io X) (a : A) :
  m s = (Ok a, s') → (m ≫= f) s = f a s'.
Proof. intros H. by rewrite run_bind, H. Qed.

Lemma run_bind_raise {A B} (m : M X A) (f : A → M X B) (s s' : io X) (e : exn) :
  m s = (Raise e, s') → (m ≫= f) s = (Raise e, s').
Proof. intros H. by rewrite run_bind, H. Qed.

Lemma run_ret_bind {A B} (a : A) (f : A → M X B) (s : io X) :
  (mret a ≫= f) s = f a s.
Proof. done. Qed.

Lemma run_bind_assoc {A B C} (m : M X A) (f : A → M X B) (g : B → M X C) (s : io X) :
  ((m ≫= f) ≫= g) s = (m ≫= λ a, f a ≫= g) s.
Proof. rewrite !run_bind. by destruct (m s) as [[a|e] s']. Qed.

Lemma run_perform_ok (fails : action X → option exn) (a : action X) (s : io X) :
  fails a = None → perform fails a s = (Ok (), after s [a]).
Proof. intros H. unfold perform. by rewrite H. Qed.

Lemma run_print (text : string) (s : io X) :
  print text s = (Ok (), extended s (printed [text]) [] []).
Proof.
  unfold print, write_stdout, extended, printed. simpl.
  by rewrite !app_nil_r.
Qed.

Lemma extended_extended (s : io X) out err acts out' err' acts' :
  extended (extended s out err acts) out' err' acts'
  = extended s (out ++ out') (err ++ err') (acts ++ acts').
Proof. unfold extended. simpl. by rewrite !app_assoc. Qed.

Lemma after_extended (s : io X) acts : after s acts = extended s [] [] acts.
Proof. unfold after, extended. by rewrite !app_nil_r. Qed.

Lemma extended_nil (s : io X) : extended s [] [] [] = s.
Proof. destruct s. unfold extended. simpl. by rewrite !app_nil_r. Qed.

Lemma for_each_take {A B} (f : A → result B) (xs : list A) (ys : list B) (n : nat) :
  for_each f xs = Ok ys → for_each f (take n xs) = Ok (take n ys).
Proof.
  revert ys n. induction xs as [|x xs IH]; intros ys n H.
  - injection H as <-. by destruct n.
  - destruct n as [|n]; [done|]. cbn in H |- *.
    destruct (f x) as [y|]; [|done]. cbn in H |- *.
    destruct (for_each f xs) as [ys'|] eqn:Hxs; [|done].
    cbn in H. injection H as <-.
    by rewrite (IH ys' n eq_refl).
Qed.

Lemma for_each_length {A B} (f : A → result B) (xs : list A) (ys : list B) :
  for_each f xs = Ok ys → length ys = length xs.
Proof.
  revert ys. induction xs as [|x xs IH]; intros ys H.
  - by injection H as <-.
  - cbn in H. destruct (f x) as [y|]; [|done]. cbn in H.
    destruct (for_each f xs) as [ys'|] eqn:Hxs; [|done].
    cbn in H. injection H as <-. simpl. by rewrite (IH ys' eq_refl).
Qed.

Lemma only_performs_ret {A} (P : action X → Prop) (a : A) :
  only_performs P (mret a).
Proof. intros s b Hb. by left. Qed.

Lemma only_performs_raise {A} (P : action X → Prop) (e : exn) :
  only_performs P (raise e : M X A).
Proof. intros s b Hb. by left. Qed.

Lemma only_performs_lift {A} (P : action X → Prop) (r : result A) :
  only_performs P (lift r).
Proof. intros s b Hb. by left. Qed.

Lemma only_performs_write_stdout (P : action X → Prop) (text : string) :
  only_performs P (write_stdout text).
Proof. intros s b Hb. by left. Qed.

Lemma only_performs_write_stderr (P : action X → Prop) (text : string) :
  only_performs P (write_stderr text).
Proof. intros s b Hb. by left. Qed.

Lemma only_performs_print (P : action X → Prop) (text : string) :
  only_performs P (print text).
Proof. apply only_performs_write_stdout. Qed.

Lemma only_performs_perform (P : action X → Prop) fails (a : action X) :
  P a → only_performs P (perform fails a).
Proof.
  intros Ha s b Hb. simpl in Hb.
  apply elem_of_app in Hb as [Hb|Hb]; [by left|].
  apply list_elem_of_singleton in Hb as ->. by right.
Qed.

Lemma only_performs_bind {A B} (P : action X → Prop) (m : M X A) (f : A → M X B) :
  only_performs P m → (∀ a, only_performs P (f a)) → only_performs P (m ≫= f).
Proof.
  intros Hm Hf s b. rewrite run_bind.
  specialize (Hm s b). destruct (m s) as [[a|e] s']; simpl in *.
  - intros Hb. destruct (Hf a s' b Hb) as [Hb'|Hb']; auto.
  - auto.
Qed.

Lemma only_performs_try_except {A} (P : action X → Prop) (body : M X A) c handler :
  only_performs P body → (∀ e, only_performs P (handler e)) →
  only_performs P (try_except body c handler).
Proof.
  intros Hm Hh s b. unfold try_except.
  specialize (Hm s b). destruct (body s) as [[a|e] s']; simpl in *; [auto|].
  destruct (isinstance e c); simpl; [|auto].
  intros Hb. destruct (Hh e s' b Hb) as [Hb'|Hb']; auto.
Qed.

Lemma only_performs_for_ {A} (P : action X → Prop) (xs : list A) body :
  (∀ x, only_performs P (body x)) → only_performs P (for_ xs body).
Proof.
  intros Hbody. induction xs as [|x xs IH]; simpl.
  - apply only_performs_ret.
  - apply only_performs_bind; auto.
Qed.

End running.

(** Breaks a goal [only_performs P m] down along the structure of [m]. *)
Ltac only_performs_step :=
  lazymatch goal with
  | |- Notions.only_performs _ (mbind _ _) =>
      apply only_performs_bind; [|intros ?]
  | |- Notions.only_performs _ (Run.print _) => apply only_performs_print
  | |- Notions.only_performs _ (Run.write_stdout _) => apply only_performs_write_stdout
  | |- Notions.only_performs _ (Run.write_stderr _) => apply only_performs_write_stderr
  | |- Notions.only_performs _ (mret _) => apply only_performs_ret
  | |- Notions.only_performs _ (Run.raise _) => apply only_performs_raise
  | |- Notions.only_performs _ (Run.lift _) => apply only_performs_lift
  | |- Notions.only_performs _ (Run.perform _ _) => apply only_performs_perform
  | |- Notions.only_performs _ (Run.try_except _ _ _) =>
      apply only_performs_try_except; [|intros ?]
  | |- Notions.only_performs _ (Run.for_ _ _) => apply only_performs_for_; intros ?
  | |- Notions.only_performs _ (if ?b then _ else _) => destruct b
  | |- Notions.only_performs _ (match ?x with _ => _ end) => destruct x
  | |- Notions.only_performs _ (let _ := _ in _) => cbv zeta
  end.


(** ** The device profile and the training configuration *)
Section device_and_config.
Import Py Run Notions FinetuneSql.

(** C2, amended.  The profile is a function of three platform facts
    (the system name, whether MPS is available, whether CUDA is
    available): a Mac with MPS gets the "mps" profile (batch size 2,
    checkpointing on); otherwise CUDA gets the "cuda" profile (batch
    size 4, bf16 on, checkpointing off); otherwise the "cpu" profile
    (batch size 1, checkpointing on).  bf16 and fp16 are never both on.
    The backend name determines the profile, and two profiles have the
    same pair of precision flags exactly when both or neither is the
    "cuda" one: the "mps" and "cpu" pairs are both (off, off). *)
Theorem C2_device_profile_selection (w w' : world) :
  let d := get_device_info w in
  let d' := get_device_info w' in
  let mac_with_mps :=
    platform_system (os w) = "Darwin" ∧ mps_is_available w = true in
  (mac_with_mps →
     d = DeviceInfo.Make "mps" false false 2 true) ∧
  (¬ mac_with_mps ∧ cuda_is_available w = true →
     d = DeviceInfo.Make "cuda" true false 4 false) ∧
  (¬ mac_with_mps ∧ cuda_is_available w = false →
     d = DeviceInfo.Make "cpu" false false 1 true) ∧
  DeviceInfo.bf16 d && DeviceInfo.fp16 d = false ∧
  (platform_system (os w) = platform_system (os w') ∧
   mps_is_available w = mps_is_available w' ∧
   cuda_is_available w = cuda_is_available w' → d = d') ∧
  (DeviceInfo.device d = DeviceInfo.device d' → d = d') ∧
  (precision_flags d = precision_flags d' ↔
     (DeviceInfo.device d = "cuda" ↔ DeviceInfo.device d' = "cuda")).
Proof.
  cbv zeta. unfold get_device_info, precision_flags.
  destruct (String.eqb_spec (platform_system (os w)) "Darwin") as [Hs|Hs];
    destruct (String.eqb_spec (platform_system (os w')) "Darwin") as [Hs'|Hs'];
    destruct (mps_is_available w), (mps_is_available w'),
      (cuda_is_available w), (cuda_is_available w'); simpl;
    repeat split; try done; try tauto; try congruence; intuition congruence.
Qed.

Lemma C2_device_profile_witness :
  get_device_info (Sample.sql_world (Sample.machine "Darwin" "arm64" [] 0) true true)
  = DeviceInfo.Make "mps" false false 2 true ∧
  get_device_info (Sample.sql_world (Sample.machine "Linux" "x86_64" [] 0) true true)
  = DeviceInfo.Make "cuda" true false 4 false.
Proof.
  split.
  - destruct (C2_device_profile_selection
                (Sample.sql_world (Sample.machine "Darwin" "arm64" [] 0) true true)
                (Sample.sql_world (Sample.machine "Darwin" "arm64" [] 0) true true))
      as (H & _).
    apply H. by vm_compute.
  - destruct (C2_device_profile_selection
                (Sample.sql_world (Sample.machine "Linux" "x86_64" [] 0) true true)
                (Sample.sql_world (Sample.machine "Linux" "x86_64" [] 0) true true))
      as (_ & H & _).
    apply H. split; [|done]. intros [Hsys _]. by vm_compute in Hsys.
Defined.

(** C2 as stated fails: the "mps" and the "cpu" profile are two
    different profiles with the same pair of precision flags. *)
Lemma C2_mps_and_cpu_share_precision_flags :
  DeviceInfo.device
    (get_device_info (Sample.sql_world (Sample.machine "Darwin" "arm64" [] 0) true false))
  = "mps" ∧
  DeviceInfo.device
    (get_device_info (Sample.sql_world (Sample.machine "Linux" "x86_64" [] 0) false false))
  = "cpu" ∧
  precision_flags
    (get_device_info (Sample.sql_world (Sample.machine "Darwin" "arm64" [] 0) true false))
  = precision_flags
      (get_device_info (Sample.sql_world (Sample.machine "Linux" "x86_64" [] 0) false false)).
Proof. by vm_compute. Qed.

(** C8.  Whatever the command line and the machine, the training
    configuration has gradient accumulation 4, maximum length 512, the
    cosine schedule with warmup ratio 0.1, no checkpoint saving and no
    intermediate evaluation, and takes gradient checkpointing, bf16 and
    fp16 from the device profile; it is the configuration [main] hands
    to the trainer. *)
Theorem C8_training_configuration (w : world) (cli : Cli.t) :
  let device_info := get_device_info w in
  let config := training_args (parse_args device_info cli) device_info in
  SFTConfig.gradient_accumulation_steps config = 4 ∧
  SFTConfig.max_length config = 512 ∧
  SFTConfig.lr_scheduler_type config = "cosine" ∧
  SFTConfig.warmup_ratio config = 1 # 10 ∧
  SFTConfig.save_strategy config = "no" ∧
  SFTConfig.eval_strategy config = "no" ∧
  SFTConfig.gradient_checkpointing config
    = DeviceInfo.gradient_checkpointing device_info ∧
  SFTConfig.bf16 config = DeviceInfo.bf16 device_info ∧
  SFTConfig.fp16 config = DeviceInfo.fp16 device_info ∧
  only_performs
    (λ a, match a with
          | Lib (SFTTrainer _ args _ _) => args = config
          | _ => True
          end)
    (main w cli).
Proof.
  cbv zeta. repeat split.
  unfold main, main_train, main_convert_and_report, convert_to_gguf,
    _run_with_filtered_stderr, get_convert_script, run_process,
    load_jsonl_dataset, load_hf_dataset, load_local_dataset, map_format_for_sft.
  repeat only_performs_step; done.
Qed.

End device_and_config.

(** ** The loaders and the sample cap *)
Section loaders.
Import Py Run Data Notions.

Lemma py_min_spec (a b : Z) : Py.min a b = Z.min a b.
Proof. unfold Py.min. destruct (Z.ltb_spec b a); lia. Qed.

Lemma slice_to_positive {A} (cap : Z) (rows : list A) :
  0 < cap → slice_to cap rows = first_rows cap rows.
Proof.
  intros Hcap. rewrite slice_to_nonneg by lia. by rewrite py_min_spec.
Qed.

Lemma for_each_slice_to {A B} (f : A → result B) (k : Z) xs ys :
  for_each f xs = Ok ys → for_each f (slice_to k xs) = Ok (slice_to k ys).
Proof.
  intros H. unfold slice_to. rewrite (for_each_length f xs ys H).
  destruct (Z.ltb k 0); by apply for_each_take.
Qed.

Lemma select_capped {A} (cap : Z) (rows : list A) :
  select rows (range (Py.min cap (Z.of_nat (length rows))))
  = Ok (first_rows cap rows).
Proof.
  rewrite select_range by (rewrite py_min_spec; lia).
  by rewrite py_min_spec.
Qed.

(** What each loader returns for any cap, in terms of the slice or
    selection it takes. *)
Lemma load_jsonl_dataset_run w path max_samples rows s :
  jsonl_rows w path rows →
  FinetuneSql.load_jsonl_dataset w path max_samples s
  = (Ok (if truthy max_samples then slice_to (default 0 max_samples) rows else rows),
     after s [ReadFile path]).
Proof.
  intros [Hread Hrows]. unfold FinetuneSql.load_jsonl_dataset.
  rewrite (run_bind_ok _ _ _ _ _ (run_perform_ok _ _ _ Hread)).
  rewrite Hrows. done.
Qed.

Lemma document_rows_run {X} data max_samples rows (s : io X) :
  document_rows data rows →
  (d ← lift data;
   items ← lift (getitem d "rows");
   let items := if truthy max_samples
                then slice_to (default 0 max_samples) items else items in
   lift (for_each (λ item, getitem item "row") items)) s
  = (Ok (if truthy max_samples then slice_to (default 0 max_samples) rows else rows), s).
Proof.
  intros (d & items & -> & Hitems & Hrows).
  rewrite run_bind. unfold lift at 1. rewrite run_bind.
  unfold getitem at 1. rewrite Hitems. unfold lift. cbv zeta.
  destruct (truthy max_samples); [|by rewrite Hrows].
  by rewrite (for_each_slice_to _ _ _ _ Hrows).
Qed.

Lemma load_local_dataset_run w path max_samples rows s :
  local_rows w path rows →
  FinetuneSql.load_local_dataset w path max_samples s
  = (Ok (if truthy max_samples then slice_to (default 0 max_samples) rows else rows),
     after s [ReadFile path]).
Proof.
  intros [Hread Hrows]. unfold FinetuneSql.load_local_dataset.
  rewrite (run_bind_ok _ _ _ _ _ (run_perform_ok _ _ _ Hread)).
  apply (document_rows_run _ max_samples _ _ Hrows).
Qed.

Lemma load_hf_dataset_run w max_samples rows s :
  registry_rows w rows →
  FinetuneSql.load_hf_dataset w max_samples s
  = (Ok (if truthy max_samples then first_rows (default 0 max_samples) rows else rows),
     after s [LoadHub "b-mc2/sql-create-context" "train"]).
Proof.
  intros [Hload <-]. unfold FinetuneSql.load_hf_dataset.
  rewrite (run_bind_ok _ _ _ _ _ (run_perform_ok _ _ _ Hload)). cbv zeta.
  destruct (truthy max_samples); [|done].
  unfold lift. by rewrite select_capped.
Qed.

Lemma prepare_data_load_local_run w max_samples rows s :
  mlx_local_rows w rows →
  FinetuneMlx.prepare_data_load w max_samples false s
  = (Ok (if truthy max_samples then slice_to (default 0 max_samples) rows else rows),
     extended s
       (printed ["Loading dataset from " +:+ local_json_path (FinetuneMlx.os w) +:+ "..."])
       [] [ReadFile (local_json_path (FinetuneMlx.os w))]).
Proof.
  intros [Hread Hrows]. unfold FinetuneMlx.prepare_data_load. cbv zeta.
  fold (local_json_path (FinetuneMlx.os w)).
  rewrite (run_bind_ok _ _ _ _ _ (run_print _ _)).
  rewrite (run_bind_ok _ _ _ _ _ (run_perform_ok _ _ _ Hread)).
  rewrite (document_rows_run _ max_samples _ _ Hrows).
  by rewrite after_extended, extended_extended.
Qed.

Lemma prepare_data_load_hf_run w max_samples rows s :
  mlx_registry_rows w rows →
  FinetuneMlx.prepare_data_load w max_samples true s
  = (Ok (if truthy max_samples then first_rows (default 0 max_samples) rows else rows),
     extended s (printed ["Loading dataset from HuggingFace..."])
       [] [LoadHub "b-mc2/sql-create-context" "train"]).
Proof.
  intros [Hload <-]. unfold FinetuneMlx.prepare_data_load.
  rewrite (run_bind_ok _ _ _ _ _ (run_print _ _)).
  rewrite (run_bind_ok _ _ _ _ _ (run_perform_ok _ _ _ Hload)). cbv zeta.
  rewrite after_extended, extended_extended.
  destruct (truthy max_samples); [|done].
  unfold lift. by rewrite select_capped.
Qed.

End loaders.

Section sample_cap.
Import Py Run Data Notions.

(** C5, amended.  For every source and every cap of at least 1, a
    source holding N rows yields exactly the first min(cap, N) of them,
    in their order: the JSONL, local-JSON and registry loaders of the
    full-finetune script and the two loading branches of the adapter
    script. *)
Theorem C5_positive_cap_keeps_first_rows (cap : Z) (Hcap : 0 < cap) :
  (∀ w path rows s, jsonl_rows w path rows →
     FinetuneSql.load_jsonl_dataset w path (Some cap) s
     = (Ok (first_rows cap rows), after s [ReadFile path])) ∧
  (∀ w path rows s, local_rows w path rows →
     FinetuneSql.load_local_dataset w path (Some cap) s
     = (Ok (first_rows cap rows), after s [ReadFile path])) ∧
  (∀ w rows s, registry_rows w rows →
     FinetuneSql.load_hf_dataset w (Some cap) s
     = (Ok (first_rows cap rows),
        after s [LoadHub "b-mc2/sql-create-context" "train"])) ∧
  (∀ w rows s, mlx_local_rows w rows →
     (FinetuneMlx.prepare_data_load w (Some cap) false s).1
     = Ok (first_rows cap rows)) ∧
  (∀ w rows s, mlx_registry_rows w rows →
     (FinetuneMlx.prepare_data_load w (Some cap) true s).1
     = Ok (first_rows cap rows)) ∧
  (∀ A (rows : list A),
     Z.of_nat (length (first_rows cap rows)) = Z.min cap (Z.of_nat (length rows)) ∧
     first_rows cap rows `prefix_of` rows).
Proof.
  assert (truthy (Some cap) = true) as Htruthy.
  { simpl. destruct (Z.eqb_spec cap 0); [lia | done]. }
  split_and!.
  - intros w path rows s H. rewrite (load_jsonl_dataset_run _ _ _ _ _ H), Htruthy.
    simpl. by rewrite slice_to_positive.
  - intros w path rows s H. rewrite (load_local_dataset_run _ _ _ _ _ H), Htruthy.
    simpl. by rewrite slice_to_positive.
  - intros w rows s H. by rewrite (load_hf_dataset_run _ _ _ _ H), Htruthy.
  - intros w rows s H. rewrite (prepare_data_load_local_run _ _ _ _ H), Htruthy.
    simpl. by rewrite slice_to_positive.
  - intros w rows s H. by rewrite (prepare_data_load_hf_run _ _ _ _ H), Htruthy.
  - intros A rows. unfold first_rows. split.
    + rewrite length_take. lia.
    + apply prefix_take.
Qed.

Lemma C5_positive_cap_witness :
  0 < 2 ∧
  FinetuneSql.load_local_dataset
    (Sample.sql_world (Sample.machine "Linux" "x86_64" [] 0) false true)
    "rows.json" (Some 2) start
  = (Ok (take 2 Sample.three_rows), after start [ReadFile "rows.json"]).
Proof.
  split; [lia|].
  refine (proj1 (proj2 (C5_positive_cap_keeps_first_rows 2 _))
            _ "rows.json" Sample.three_rows start _); [lia|].
  split; [reflexivity|].
  exists (Sample.document Sample.three_rows),
    ((λ r, {[ "row" := r ]}) <$> Sample.three_rows).
  split_and!; reflexivity.
Defined.

(** C5 as stated fails at cap 0: the local-JSON loader returns all
    three rows of a three-row source, not its first min(0, 3) = 0. *)
Lemma C5_zero_cap_returns_every_row :
  local_rows (Sample.sql_world (Sample.machine "Linux" "x86_64" [] 0) false true)
    "rows.json" Sample.three_rows ∧
  (FinetuneSql.load_local_dataset
     (Sample.sql_world (Sample.machine "Linux" "x86_64" [] 0) false true)
     "rows.json" (Some 0) start).1
  = Ok Sample.three_rows ∧
  length Sample.three_rows = 3%nat ∧
  first_rows 0 Sample.three_rows = [].
Proof.
  split_and!; try reflexivity.
  split; [reflexivity|].
  exists (Sample.document Sample.three_rows),
    ((λ r, {[ "row" := r ]}) <$> Sample.three_rows).
  split_and!; reflexivity.
Qed.

(** C9.  The cap is tested for truthiness, which 0 fails like [None]
    does; so with a cap of 0 every loader of both scripts returns all
    the rows of its source, as it does without a cap. *)
Theorem C9_zero_cap_is_no_cap :
  (∀ max_samples, truthy max_samples = false ↔
     max_samples = None ∨ max_samples = Some 0) ∧
  (∀ w path rows s, jsonl_rows w path rows →
     FinetuneSql.load_jsonl_dataset w path (Some 0) s
     = (Ok rows, after s [ReadFile path]) ∧
     FinetuneSql.load_jsonl_dataset w path (Some 0) s
     = FinetuneSql.load_jsonl_dataset w path None s) ∧
  (∀ w path rows s, local_rows w path rows →
     FinetuneSql.load_local_dataset w path (Some 0) s
     = (Ok rows, after s [ReadFile path]) ∧
     FinetuneSql.load_local_dataset w path (Some 0) s
     = FinetuneSql.load_local_dataset w path None s) ∧
  (∀ w rows s, registry_rows w rows →
     FinetuneSql.load_hf_dataset w (Some 0) s
     = (Ok rows, after s [LoadHub "b-mc2/sql-create-context" "train"]) ∧
     FinetuneSql.load_hf_dataset w (Some 0) s
     = FinetuneSql.load_hf_dataset w None s) ∧
  (∀ w rows s, mlx_local_rows w rows →
     (FinetuneMlx.prepare_data_load w (Some 0) false s).1 = Ok rows ∧
     FinetuneMlx.prepare_data_load w (Some 0) false s
     = FinetuneMlx.prepare_data_load w None false s) ∧
  (∀ w rows s, mlx_registry_rows w rows →
     (FinetuneMlx.prepare_data_load w (Some 0) true s).1 = Ok rows ∧
     FinetuneMlx.prepare_data_load w (Some 0) true s
     = FinetuneMlx.prepare_data_load w None true s).
Proof.
  split_and!.
  - intros [n|]; simpl; [|by split; auto].
    destruct (Z.eqb_spec n 0) as [->|Hn]; simpl; [by split; auto|].
    split; [done | intros [?|[= ?]]; done].
  - intros w path rows s H. by rewrite !(load_jsonl_dataset_run _ _ _ _ _ H).
  - intros w path rows s H. by rewrite !(load_local_dataset_run _ _ _ _ _ H).
  - intros w rows s H. by rewrite !(load_hf_dataset_run _ _ _ _ H).
  - intros w rows s H. by rewrite !(prepare_data_load_local_run _ _ _ _ H).
  - intros w rows s H. by rewrite !(prepare_data_load_hf_run _ _ _ _ H).
Qed.

Lemma C9_zero_cap_witness :
  FinetuneSql.load_hf_dataset
    (Sample.sql_world (Sample.machine "Linux" "x86_64" [] 0) false true)
    (Some 0) start
  = (Ok Sample.three_rows, after start [LoadHub "b-mc2/sql-create-context" "train"]).
Proof.
  refine (proj1 (proj1 (proj2 (proj2 (proj2 C9_zero_cap_is_no_cap)))
                   _ Sample.three_rows start _)).
  split; reflexivity.
Defined.

End sample_cap.

(** ** The formatter *)
Section formatter.
Import Py Run Data Notions.

(** The separator cannot overlap a shifted copy of itself: if it
    starts a text that also reads as a non-empty [d] followed by the
    separator, then the separator already occurs in [d]. *)
Lemma separator_unbordered (d q1 q2 : string) :
  d ≠ "" → separator +:+ q1 = d +:+ separator +:+ q2 →
  contains separator d = true.
Proof.
  intros Hd H. unfold separator in H. simpl in H.
  do 31 (destruct d as [|? d];
         [ first [ done | simpl in H; discriminate H ]
         | simpl in H; injection H as ? H; subst ]).
  apply contains_true. by exists "", d.
Qed.

Lemma separator_split (c1 c2 q1 q2 : string) :
  contains separator c1 = false → contains separator c2 = false →
  c1 +:+ separator +:+ q1 = c2 +:+ separator +:+ q2 →
  c1 = c2 ∧ q1 = q2.
Proof.
  revert c2. induction c1 as [|a c1 IH]; intros [|b c2] H1 H2 H.
  - split; [done|]. apply (append_inv_head separator q1 q2). exact H.
  - change ("" +:+ separator +:+ q1) with (separator +:+ q1) in H.
    apply separator_unbordered in H; [congruence | done].
  - change ("" +:+ separator +:+ q2) with (separator +:+ q2) in H.
    symmetry in H. apply separator_unbordered in H; [congruence | done].
  - change (String a (c1 +:+ separator +:+ q1)
            = String b (c2 +:+ separator +:+ q2)) in H.
    injection H as -> H.
    apply contains_tail in H1, H2.
    destruct (IH c2 H1 H2 H) as [-> ->]. done.
Qed.

Lemma prompt_of_inj (c1 c2 q1 q2 : string) :
  contains separator c1 = false → contains separator c2 = false →
  prompt_of c1 q1 = prompt_of c2 q2 → c1 = c2 ∧ q1 = q2.
Proof.
  intros H1 H2 H. unfold prompt_of in H.
  apply append_inv_head, append_inv_head in H.
  by apply separator_split.
Qed.

Lemma format_for_sft_unfold (example : Example) :
  FinetuneSql.format_for_sft example =
  match triple example with
  | (Some c, Some q, Some a) =>
      Ok (FinetuneSql.SftRecord [Message "user" (prompt_of c q)]
            [Message "assistant" a])
  | (None, _, _) => Raise (KeyError "context")
  | (Some _, None, _) => Raise (KeyError "question")
  | (Some _, Some _, None) => Raise (KeyError "answer")
  end.
Proof.
  unfold FinetuneSql.format_for_sft, triple, getitem.
  destruct (example !! "context") as [c|]; [|done]. cbn.
  destruct (example !! "question") as [q|]; [|done]. cbn.
  destruct (example !! "answer") as [a|]; done.
Qed.

Lemma to_chat_format_unfold (example : Example) :
  FinetuneMlx.to_chat_format example =
  match triple example with
  | (Some c, Some q, Some a) =>
      Ok (FinetuneMlx.ChatRecord [Message "user" (prompt_of c q);
                                  Message "assistant" a])
  | (None, _, _) => Raise (KeyError "context")
  | (Some _, None, _) => Raise (KeyError "question")
  | (Some _, Some _, None) => Raise (KeyError "answer")
  end.
Proof.
  unfold FinetuneMlx.to_chat_format, triple, getitem.
  destruct (example !! "context") as [c|]; [|done]. cbn.
  destruct (example !! "question") as [q|]; [|done]. cbn.
  destruct (example !! "answer") as [a|]; done.
Qed.

(** C3, amended.  Formatting the same raw example twice gives the same
    record, and a well-formed example (one with the three columns) is
    always formatted.  Two well-formed examples whose schema text does
    not contain the separator (two line feeds followed by "Write a SQL
    query to answer: ") and that are formatted to the same record have
    the same (schema, question, answer) triple.  This holds for
    [format_for_sft] and for [to_chat_format]. *)
Theorem C3_formatter_deterministic_and_injective :
  (∀ e e' : Example, e = e' →
     FinetuneSql.format_for_sft e = FinetuneSql.format_for_sft e' ∧
     FinetuneMlx.to_chat_format e = FinetuneMlx.to_chat_format e') ∧
  (∀ e : Example, well_formed e →
     ∃ c q a, triple e = (Some c, Some q, Some a) ∧
       FinetuneSql.format_for_sft e
       = Ok (FinetuneSql.SftRecord [Message "user" (prompt_of c q)]
               [Message "assistant" a]) ∧
       FinetuneMlx.to_chat_format e
       = Ok (FinetuneMlx.ChatRecord [Message "user" (prompt_of c q);
                                     Message "assistant" a])) ∧
  (∀ e1 e2 : Example,
     well_formed e1 → well_formed e2 → plain_schema e1 → plain_schema e2 →
     FinetuneSql.format_for_sft e1 = FinetuneSql.format_for_sft e2 →
     triple e1 = triple e2) ∧
  (∀ e1 e2 : Example,
     well_formed e1 → well_formed e2 → plain_schema e1 → plain_schema e2 →
     FinetuneMlx.to_chat_format e1 = FinetuneMlx.to_chat_format e2 →
     triple e1 = triple e2).
Proof.
  assert (∀ e : Example, well_formed e →
            ∃ c q a, triple e = (Some c, Some q, Some a)) as Htriple.
  { intros e ([c Hc] & [q Hq] & [a Ha]). exists c, q, a.
    unfold triple. by rewrite Hc, Hq, Ha. }
  split_and!.
  - by intros e e' ->.
  - intros e He. destruct (Htriple e He) as (c & q & a & Ht).
    exists c, q, a. rewrite format_for_sft_unfold, to_chat_format_unfold, Ht. done.
  - intros e1 e2 He1 He2 Hp1 Hp2.
    destruct (Htriple e1 He1) as (c1 & q1 & a1 & Ht1).
    destruct (Htriple e2 He2) as (c2 & q2 & a2 & Ht2).
    rewrite !format_for_sft_unfold, Ht1, Ht2.
    remember (prompt_of c1 q1) as p1 eqn:Hp1'.
    remember (prompt_of c2 q2) as p2 eqn:Hp2'.
    intros [= Hprompt ->]. rewrite Hp1', Hp2' in Hprompt.
    apply prompt_of_inj in Hprompt as [-> ->]; [done| |].
    + apply Hp1. unfold triple in Ht1. congruence.
    + apply Hp2. unfold triple in Ht2. congruence.
  - intros e1 e2 He1 He2 Hp1 Hp2.
    destruct (Htriple e1 He1) as (c1 & q1 & a1 & Ht1).
    destruct (Htriple e2 He2) as (c2 & q2 & a2 & Ht2).
    rewrite !to_chat_format_unfold, Ht1, Ht2.
    remember (prompt_of c1 q1) as p1 eqn:Hp1'.
    remember (prompt_of c2 q2) as p2 eqn:Hp2'.
    intros [= Hprompt ->]. rewrite Hp1', Hp2' in Hprompt.
    apply prompt_of_inj in Hprompt as [-> ->]; [done| |].
    + apply Hp1. unfold triple in Ht1. congruence.
    + apply Hp2. unfold triple in Ht2. congruence.
Qed.

Lemma C3_formatter_witness :
  ∃ c q a,
    triple (Sample.example "CREATE TABLE a (x INT)" "How many rows?" "SELECT 1")
    = (Some c, Some q, Some a) ∧
    FinetuneSql.format_for_sft
      (Sample.example "CREATE TABLE a (x INT)" "How many rows?" "SELECT 1")
    = Ok (FinetuneSql.SftRecord [Message "user" (prompt_of c q)]
            [Message "assistant" a]) ∧
    FinetuneMlx.to_chat_format
      (Sample.example "CREATE TABLE a (x INT)" "How many rows?" "SELECT 1")
    = Ok (FinetuneMlx.ChatRecord [Message "user" (prompt_of c q);
                                  Message "assistant" a]).
Proof.
  apply (proj1 (proj2 C3_formatter_deterministic_and_injective)).
  split_and!; eexists; reflexivity.
Defined.

(** C3 as stated fails: two well-formed examples with different
    triples are formatted to the same record by both formatters, the
    question of the first carrying what the schema of the second holds. *)
Lemma C3_distinct_triples_same_record :
  well_formed (Sample.example "T" ("a" +:+ separator +:+ "b") "x") ∧
  well_formed (Sample.example ("T" +:+ separator +:+ "a") "b" "x") ∧
  triple (Sample.example "T" ("a" +:+ separator +:+ "b") "x")
    ≠ triple (Sample.example ("T" +:+ separator +:+ "a") "b" "x") ∧
  FinetuneSql.format_for_sft (Sample.example "T" ("a" +:+ separator +:+ "b") "x")
  = FinetuneSql.format_for_sft (Sample.example ("T" +:+ separator +:+ "a") "b" "x") ∧
  FinetuneMlx.to_chat_format (Sample.example "T" ("a" +:+ separator +:+ "b") "x")
  = FinetuneMlx.to_chat_format (Sample.example ("T" +:+ separator +:+ "a") "b" "x").
Proof.
  split_and!.
  - split_and!; eexists; reflexivity.
  - split_and!; eexists; reflexivity.
  - vm_compute. discriminate.
  - reflexivity.
  - reflexivity.
Qed.

End formatter.

(** ** The filter on the converter's standard error *)
Section stderr_filter.
Import Py Run Data Notions FinetuneSql.

Lemma run_for_write_stdout {X} (lines : list string) (s : io X) :
  for_ lines (λ line, write_stdout line) s = (Ok (), extended s lines [] []).
Proof.
  revert s. induction lines as [|line lines IH]; intros s; simpl.
  - by rewrite extended_nil.
  - rewrite run_bind. simpl. rewrite IH.
    unfold extended. simpl. by rewrite !app_nil_r, <-!app_assoc.
Qed.

Lemma run_for_filter_stderr {X} (keep : string → bool) (lines : list string) (s : io X) :
  for_ lines (λ line, if keep line then write_stderr line else mret ()) s
  = (Ok (), extended s [] (List.filter keep lines) []).
Proof.
  revert s. induction lines as [|line lines IH]; intros s; simpl.
  - by rewrite extended_nil.
  - rewrite run_bind. destruct (keep line); simpl; rewrite IH.
    + unfold extended. simpl. by rewrite !app_nil_r, <-!app_assoc.
    + done.
Qed.

Lemma existsb_benign (line : string) :
  existsb (λ pattern, contains pattern line) filter_patterns = true ↔ benign line.
Proof.
  rewrite existsb_exists. unfold benign. split.
  - intros (pattern & Hin & Hc). apply contains_true in Hc as (before & after & ->).
    exists pattern, before, after. split; [|done]. by apply list_elem_of_In.
  - intros (pattern & before & after & Hin & ->). exists pattern. split.
    + by apply list_elem_of_In.
    + apply contains_true. eauto.
Qed.

Lemma forwards_filter (lines : list string) :
  forwards lines
    (List.filter
       (λ line, negb (existsb (λ pattern, contains pattern line) filter_patterns))
       lines).
Proof.
  induction lines as [|line lines IH]; [constructor|]. cbn [List.filter].
  destruct (existsb (λ pattern, contains pattern line) filter_patterns) eqn:Hb;
    cbn [negb].
  - apply forwards_drop; [by apply existsb_benign | done].
  - apply forwards_keep; [|done].
    intros Hbenign. apply existsb_benign in Hbenign. congruence.
Qed.

Lemma forwards_sublist (lines out : list string) :
  forwards lines out → out `sublist_of` lines.
Proof. induction 1; by constructor. Qed.

Lemma forwards_elem_of (lines out : list string) :
  forwards lines out → ∀ line, line ∈ out ↔ line ∈ lines ∧ ¬ benign line.
Proof.
  induction 1 as [|l lines out Hb _ IH|l lines out Hb _ IH]; intros line.
  - split; [by intros ?%elem_of_nil | by intros [?%elem_of_nil _]].
  - rewrite IH, elem_of_cons. split; [tauto|].
    intros [[->|?] ?]; [done | tauto].
  - rewrite !elem_of_cons, IH. split; [|tauto].
    intros [->|[? ?]]; tauto.
Qed.

(** The two relays of [_run_with_filtered_stderr], whatever the exit. *)
Lemma run_with_filtered_stderr_state (w : world) cmd env p s :
  spawn (os w) cmd env = Some p →
  (_run_with_filtered_stderr w cmd env s).2
  = extended s (proc_stdout p)
      (List.filter
         (λ line, negb (existsb (λ pattern, contains pattern line) filter_patterns))
         (proc_stderr p))
      [Spawn cmd env] ∧
  (_run_with_filtered_stderr w cmd env s).1
  = if negb (Z.eqb (proc_returncode p) 0)
    then Raise (CalledProcessError (proc_returncode p) cmd)
    else Ok ().
Proof.
  intros Hp. unfold _run_with_filtered_stderr, run_process.
  rewrite run_bind, run_bind.
  rewrite (run_perform_ok _ _ _ eq_refl), Hp. cbn [mret M_ret].
  rewrite run_bind, run_for_write_stdout.
  rewrite run_bind, run_for_filter_stderr.
  rewrite after_extended, !extended_extended, !app_nil_r, !app_nil_l.
  by destruct (negb (Z.eqb (proc_returncode p) 0)).
Qed.

(** C6.  Whatever the converter writes to its standard error, what
    reaches the parent's standard error is those lines with exactly the
    ones containing one of the five fixed substrings left out, the
    others unchanged and in their order. *)
Theorem C6_stderr_filter (w : world) (cmd : list string)
    (env : list (string * string)) (p : process) (s : io lib_call) :
  spawn (os w) cmd env = Some p →
  ∃ forwarded,
    stderr (_run_with_filtered_stderr w cmd env s).2 = stderr s ++ forwarded ∧
    forwards (proc_stderr p) forwarded ∧
    forwarded `sublist_of` proc_stderr p ∧
    (∀ line, line ∈ forwarded ↔ line ∈ proc_stderr p ∧ ¬ benign line) ∧
    length filter_patterns = 5%nat.
Proof.
  intros Hp. eexists. split_and!.
  - by rewrite (proj1 (run_with_filtered_stderr_state w cmd env p s Hp)).
  - apply forwards_filter.
  - apply forwards_sublist, forwards_filter.
  - apply forwards_elem_of, forwards_filter.
  - done.
Qed.

Lemma C6_stderr_filter_witness :
  ∃ forwarded,
    stderr
      (_run_with_filtered_stderr
         (Sample.sql_world
            (Sample.machine "Linux" "x86_64"
               ["loading"; "note: To disable this warning, set X"; "done"] 0)
            false true)
         ["convert"] [] start).2
    = [] ++ forwarded ∧
    forwards ["loading"; "note: To disable this warning, set X"; "done"] forwarded ∧
    forwarded `sublist_of` ["loading"; "note: To disable this warning, set X"; "done"] ∧
    (∀ line, line ∈ forwarded ↔
       line ∈ ["loading"; "note: To disable this warning, set X"; "done"] ∧
       ¬ benign line) ∧
    length filter_patterns = 5%nat.
Proof.
  exact (C6_stderr_filter
           (Sample.sql_world
              (Sample.machine "Linux" "x86_64"
                 ["loading"; "note: To disable this warning, set X"; "done"] 0)
              false true)
           ["convert"] [] _ start eq_refl).
Defined.

End stderr_filter.

(** ** The adapter script: platform check and export step *)
Section adapter_script.
Import Py Run Data Notions FinetuneMlx.

(** Runs the [print]s at the head of a sequence. *)
Ltac run_prints :=
  repeat first
    [ rewrite (run_bind_ok _ _ _ _ _ (run_print _ _))
    | rewrite run_ret_bind
    | rewrite run_bind_assoc ];
  rewrite ?run_print, ?extended_extended.

Lemma check_apple_silicon_not_mac (w : world) (s : io lib_call) :
  platform_system (os w) ≠ "Darwin" →
  check_apple_silicon w s
  = (Raise (SystemExit 1),
     extended s
       (printed [ str_mul "=" 60;
                  "ERROR: Not running on macOS";
                  str_mul "=" 60;
                  "";
                  "MLX requires macOS with Apple Silicon (M1/M2/M3/M4).";
                  "";
                  "For other platforms, use:";
                  "  - Linux/Windows with NVIDIA GPU: finetune_sql.py";
                  "" ])
       [] []).
Proof.
  intros Hsys. unfold check_apple_silicon.
  destruct (String.eqb_spec (platform_system (os w)) "Darwin") as [?|_]; [done|].
  cbn [negb]. apply run_bind_raise. run_prints. done.
Qed.

(** C7.  On a system other than macOS the adapter script prints its
    diagnostic and exits with status 1 at once: nothing is loaded,
    written or started. *)
Theorem C7_unsupported_platform_exits (w : world) (cli : Cli.t) (s : io lib_call) :
  platform_system (os w) ≠ "Darwin" →
  main w cli s
  = (Raise (SystemExit 1),
     extended s
       (printed [ str_mul "=" 60;
                  "ERROR: Not running on macOS";
                  str_mul "=" 60;
                  "";
                  "MLX requires macOS with Apple Silicon (M1/M2/M3/M4).";
                  "";
                  "For other platforms, use:";
                  "  - Linux/Windows with NVIDIA GPU: finetune_sql.py";
                  "" ])
       [] []) ∧
  exit_status (main w cli s).1 = 1 ∧
  actions (main w cli s).2 = actions s ∧
  stderr (main w cli s).2 = stderr s.
Proof.
  intros Hsys.
  unfold main.
  rewrite (run_bind_raise _ _ _ _ _ (check_apple_silicon_not_mac w s Hsys)).
  simpl. by rewrite !app_nil_r.
Qed.

Lemma C7_unsupported_platform_witness :
  exit_status
    (main (Sample.mlx_world (Sample.machine "Linux" "x86_64" [] 0))
       (Sample.mlx_cli None false) start).1
  = 1 ∧
  actions
    (main (Sample.mlx_world (Sample.machine "Linux" "x86_64" [] 0))
       (Sample.mlx_cli None false) start).2
  = [].
Proof.
  pose proof (C7_unsupported_platform_exits
                (Sample.mlx_world (Sample.machine "Linux" "x86_64" [] 0))
                (Sample.mlx_cli None false) start) as H.
  destruct H as (_ & Hexit & Hacts & _); [by vm_compute|].
  split; [exact Hexit | exact Hacts].
Defined.

Lemma subprocess_run_check_ok {X} (h : host) cmd p (s : io X) :
  spawn h cmd [] = Some p → proc_returncode p = 0 →
  subprocess_run_check h cmd s = (Ok (), after s [Spawn cmd []]).
Proof.
  intros Hp Hrc. unfold subprocess_run_check, run_process.
  rewrite run_bind, run_bind, (run_perform_ok _ _ _ eq_refl), Hp.
  cbn [mret M_ret]. by rewrite Hrc.
Qed.

Lemma fuse_and_export_without_file (w : world) (args : Args.t) adapter_path p s :
  spawn (os w) (fuse_command w args adapter_path) [] = Some p →
  proc_returncode p = 0 →
  path_exists (os w) (path_join (fused_model_dir args) "ggml-model-f16.gguf") = false →
  fuse_and_export w (Args.model args) adapter_path (Args.output_dir args) true s
  = (Ok (fused_model_dir args, None),
     extended s
       (printed [""; "Running: " +:+ join " " (fuse_command w args adapter_path); ""])
       [] [Spawn (fuse_command w args adapter_path) []]).
Proof.
  intros Hp Hrc Hfile. unfold fuse_and_export. cbv zeta.
  change ([sys_executable (os w); "-m"; "mlx_lm.fuse"; "--model"; Args.model args;
           "--adapter-path"; adapter_path; "--save-path";
           path_join (Args.output_dir args) "fused_model"] ++ ["--export-gguf"])
    with (fuse_command w args adapter_path).
  fold (fused_model_dir args). rewrite Hfile.
  run_prints.
  rewrite (run_bind_ok _ _ _ _ _ (subprocess_run_check_ok _ _ _ _ Hp Hrc)).
  by rewrite after_extended, extended_extended.
Qed.

(** C10.  When GGUF export is requested, the fuse subprocess exits
    with 0 and [ggml-model-f16.gguf] is absent from the fused-model
    directory, [fuse_and_export] returns no GGUF path without raising,
    nothing is written to standard error, the summary reports
    "Training complete!" with the adapter and fused-model paths and no
    GGUF line, and the run ends with exit status 0. *)
Theorem C10_missing_gguf_file_is_silent (w : world) (args : Args.t)
    (adapter_path : string) (p : process) (s : io lib_call) :
  Args.no_gguf args = false →
  spawn (os w) (fuse_command w args adapter_path) [] = Some p →
  proc_returncode p = 0 →
  path_exists (os w) (path_join (fused_model_dir args) "ggml-model-f16.gguf") = false →
  fuse_and_export w (Args.model args) adapter_path (Args.output_dir args)
    (negb (Args.no_gguf args)) s
  = (Ok (fused_model_dir args, None),
     extended s
       (printed [""; "Running: " +:+ join " " (fuse_command w args adapter_path); ""])
       [] [Spawn (fuse_command w args adapter_path) []]) ∧
  main_fuse_and_report w args adapter_path s
  = (Ok (),
     extended s
       (printed
          [ "";
            str_mul "=" 40;
            "Step 3: Fusing adapters and exporting GGUF";
            str_mul "=" 40;
            "";
            "Running: " +:+ join " " (fuse_command w args adapter_path);
            "";
            "";
            str_mul "=" 60;
            "Training complete!";
            str_mul "=" 60;
            "";
            "Adapters:    " +:+ abspath (os w) adapter_path;
            "Fused model: " +:+ abspath (os w) (fused_model_dir args);
            "";
            "Next steps - Use your fine-tuned model:";
            "";
            "  Generate with MLX:";
            "    mlx_lm.generate --model " +:+ fused_model_dir args
              +:+ " --prompt 'Your prompt'";
            "" ])
       [] [Spawn (fuse_command w args adapter_path) []]) ∧
  (∀ cli s0 s1,
     parse_args cli = args →
     check_apple_silicon w s0 = (Ok (), s1) →
     main_prepare_and_train w args s1 = (Ok adapter_path, s) →
     main w cli s0 = main_fuse_and_report w args adapter_path s ∧
     exit_status (main w cli s0).1 = 0 ∧
     stderr (main w cli s0).2 = stderr s).
Proof.
  intros Hgguf Hp Hrc Hfile.
  assert (main_fuse_and_report w args adapter_path s
          = (Ok (),
             extended s
               (printed
                  [ "";
                    str_mul "=" 40;
                    "Step 3: Fusing adapters and exporting GGUF";
                    str_mul "=" 40;
                    "";
                    "Running: " +:+ join " " (fuse_command w args adapter_path);
                    "";
                    "";
                    str_mul "=" 60;
                    "Training complete!";
                    str_mul "=" 60;
                    "";
                    "Adapters:    " +:+ abspath (os w) adapter_path;
                    "Fused model: " +:+ abspath (os w) (fused_model_dir args);
                    "";
                    "Next steps - Use your fine-tuned model:";
                    "";
                    "  Generate with MLX:";
                    "    mlx_lm.generate --model " +:+ fused_model_dir args
                      +:+ " --prompt 'Your prompt'";
                    "" ])
               [] [Spawn (fuse_command w args adapter_path) []])) as Hreport.
  { unfold main_fuse_and_report. rewrite Hgguf. cbn [negb].
    run_prints.
    rewrite (run_bind_ok _ _ _ _ _
               (fuse_and_export_without_file w args adapter_path p _ Hp Hrc Hfile)).
    cbn [truthy_str]. run_prints. done. }
  split_and!.
  - rewrite Hgguf. by apply fuse_and_export_without_file with p.
  - exact Hreport.
  - intros cli s0 s1 Hargs Hcheck Htrain.
    assert (main w cli s0 = main_fuse_and_report w args adapter_path s) as ->.
    { unfold main. rewrite (run_bind_ok _ _ _ _ _ Hcheck). cbv zeta.
      rewrite Hargs. by rewrite (run_bind_ok _ _ _ _ _ Htrain). }
    rewrite Hreport. split_and!; [done | done |].
    unfold extended. cbn [snd stderr]. by rewrite app_nil_r.
Qed.

Lemma C10_missing_gguf_file_witness :
  exit_status
    (main (Sample.mlx_world (Sample.machine "Darwin" "arm64" [] 0))
       (Sample.mlx_cli None false) start).1
  = 0.
Proof.
  pose proof (C10_missing_gguf_file_is_silent
                (Sample.mlx_world (Sample.machine "Darwin" "arm64" [] 0))
                (parse_args (Sample.mlx_cli None false))
                "./qwen3-sql-mlx/adapters"
                {| proc_stdout := []; proc_stderr := []; proc_returncode := 0 |}
                (main_prepare_and_train
                   (Sample.mlx_world (Sample.machine "Darwin" "arm64" [] 0))
                   (parse_args (Sample.mlx_cli None false)) start).2) as H.
  destruct H as (_ & _ & H); [by vm_compute..|].
  destruct (H (Sample.mlx_cli None false) start start) as (_ & Hexit & _);
    [by vm_compute..|].
  exact Hexit.
Defined.

End adapter_script.

(** ** The full-finetune script: a failing converter *)
Section converter_failure.
Import Py Run Data Notions FinetuneSql.

Lemma try_except_not_caught {X A} (body : M X A) c handler (s s' : io X) e :
  body s = (Raise e, s') → isinstance e c = false →
  try_except body c handler s = (Raise e, s').
Proof. intros Hbody He. unfold try_except. by rewrite Hbody, He. Qed.

(** On a machine that is not ARM and has Docker, a containerized
    converter that exits with a non-zero code makes [convert_to_gguf]
    raise [CalledProcessError] for that command line. *)
Lemma convert_to_gguf_docker_failure (w : world) model_path output_path quantization
    (probe p : process) (s : io lib_call) :
  let cmd :=
    [ "docker"; "run"; "--rm";
      "-e"; "TOKENIZERS_PARALLELISM=false";
      "-e"; "TRANSFORMERS_VERBOSITY=error";
      "-v"; abspath (os w) model_path +:+ ":/model:ro";
      "-v"; dirname (os w) (abspath (os w) output_path) +:+ ":/output";
      DOCKER_IMAGE;
      "python3"; "/app/convert_hf_to_gguf.py";
      "/model";
      "--outfile"; "/output/" +:+ basename (os w) (abspath (os w) output_path);
      "--outtype"; quantization ] in
  let env :=
    [ ("TOKENIZERS_PARALLELISM", "false");
      ("TRANSFORMERS_VERBOSITY", "error");
      ("HF_HUB_DISABLE_PROGRESS_BARS", "1");
      ("PYTHONWARNINGS", "ignore") ] in
  fails w (Makedirs (dirname (os w) (abspath (os w) output_path))) = None →
  platform_machine (os w) ∉ ["arm64"; "aarch64"] →
  spawn (os w) ["docker"; "--version"] [] = Some probe →
  proc_returncode probe = 0 →
  spawn (os w) cmd env = Some p →
  proc_returncode p ≠ 0 →
  (convert_to_gguf w model_path output_path quantization s).1
  = Raise (CalledProcessError (proc_returncode p) cmd).
Proof.
  intros cmd env Hmk Harm Hprobe Hrc0 Hp Hrc. unfold convert_to_gguf. cbv zeta.
  rewrite (run_bind_ok _ _ _ _ _ (run_perform_ok _ _ _ Hmk)).
  rewrite run_bind. unfold run_process at 1.
  rewrite run_bind, (run_perform_ok _ _ _ eq_refl), Hprobe. cbn [mret M_ret].
  rewrite Hrc0. rewrite (bool_decide_eq_false_2 _ Harm). cbn [Z.eqb negb andb].
  rewrite run_bind, run_bind, run_print.
  fold cmd. fold env.
  pose proof (run_with_filtered_stderr_state w cmd env p
                (extended (after (after s [Makedirs (dirname (os w) (abspath (os w) output_path))])
                             [Spawn ["docker"; "--version"] []])
                   (printed ["Using Docker image: " +:+ DOCKER_IMAGE]) [] []) Hp)
    as [_ Hres].
  destruct (_run_with_filtered_stderr w cmd env _) as [r s'] eqn:Hrun.
  simpl in Hres. subst r.
  destruct (Z.eqb_spec (proc_returncode p) 0); [done|]. done.
Qed.

(** C1 fails on the code.  The converter's non-zero exit is raised as
    a [CalledProcessError], which is no [RuntimeError]: the handler of
    [main] does not catch it, so no warning is printed, the summary is
    never reached and the process ends with exit status 1. *)
Theorem C1_converter_failure_is_not_caught (w : world) (args : Args.t)
    (final_path : string) (returncode : Z) (cmd : list string) (s s' : io lib_call) :
  Args.no_gguf args = false →
  convert_to_gguf w final_path (final_path +:+ ".gguf") (Args.gguf_type args)
    (extended s (printed [""; "Converting to GGUF format..."]) [] [])
  = (Raise (CalledProcessError returncode cmd), s') →
  isinstance (CalledProcessError returncode cmd) RuntimeError = false ∧
  main_convert_and_report w args final_path s
  = (Raise (CalledProcessError returncode cmd), s') ∧
  exit_status (main_convert_and_report w args final_path s).1 = 1.
Proof.
  intros Hgguf Hconvert.
  assert (main_convert_and_report w args final_path s
          = (Raise (CalledProcessError returncode cmd), s')) as Hmain.
  { unfold main_convert_and_report. rewrite Hgguf. cbn [negb]. cbv zeta.
    apply run_bind_raise.
    rewrite (run_bind_ok _ _ _ _ _ (run_print _ _)).
    rewrite (run_bind_ok _ _ _ _ _ (run_print _ _)).
    rewrite extended_extended.
    apply try_except_not_caught; [|done].
    apply run_bind_raise. exact Hconvert. }
  split_and!; [done | done | by rewrite Hmain].
Qed.

Lemma C1_converter_failure_witness :
  (main (Sample.sql_world (Sample.machine "Linux" "x86_64" ["conversion error"] 1)
           false true)
     (Sample.sql_cli None None false) start).1
  = Raise
      (CalledProcessError 1
         [ "docker"; "run"; "--rm";
           "-e"; "TOKENIZERS_PARALLELISM=false";
           "-e"; "TRANSFORMERS_VERBOSITY=error";
           "-v"; "./.finetune/qwen3-sql-final:/model:ro";
           "-v"; "/repo/out:/output";
           "ghcr.io/ggml-org/llama.cpp:full";
           "python3"; "/app/convert_hf_to_gguf.py";
           "/model";
           "--outfile"; "/output/model.gguf";
           "--outtype"; "q8_0" ]) ∧
  exit_status
    (main (Sample.sql_world (Sample.machine "Linux" "x86_64" ["conversion error"] 1)
             false true)
       (Sample.sql_cli None None false) start).1
  = 1 ∧
  Forall (λ line, String.prefix "Warning" line = false ∧
                  line ≠ "Training complete!" +:+ nl)
    (stdout
       (main (Sample.sql_world (Sample.machine "Linux" "x86_64" ["conversion error"] 1)
                false true)
          (Sample.sql_cli None None false) start).2).
Proof.
  set (w := Sample.sql_world
              (Sample.machine "Linux" "x86_64" ["conversion error"] 1) false true).
  set (cli := Sample.sql_cli None None false).
  set (args := parse_args (get_device_info w) cli).
  set (s := (main_train w (get_device_info w) args start).2).
  assert (main w cli start
          = main_convert_and_report w args "./.finetune/qwen3-sql-final" s) as ->
    by (vm_compute; reflexivity).
  destruct (C1_converter_failure_is_not_caught w args "./.finetune/qwen3-sql-final" 1
              [ "docker"; "run"; "--rm";
                "-e"; "TOKENIZERS_PARALLELISM=false";
                "-e"; "TRANSFORMERS_VERBOSITY=error";
                "-v"; "./.finetune/qwen3-sql-final:/model:ro";
                "-v"; "/repo/out:/output";
                "ghcr.io/ggml-org/llama.cpp:full";
                "python3"; "/app/convert_hf_to_gguf.py";
                "/model";
                "--outfile"; "/output/model.gguf";
                "--outtype"; "q8_0" ]
              s
              (convert_to_gguf w "./.finetune/qwen3-sql-final"
                 "./.finetune/qwen3-sql-final.gguf" "q8_0"
                 (extended s (printed [""; "Converting to GGUF format..."]) [] [])).2)
    as (_ & Hmain & Hexit); [by vm_compute | by vm_compute |].
  split_and!; [by rewrite Hmain | exact Hexit |].
  rewrite Hmain. vm_compute. repeat constructor; discriminate.
Defined.

End converter_failure.

(** * Further properties of the two scripts *)

(** ** Loading: caps of any sign, malformed input, blank lines *)
Section loading_edges.
Import Py Run Data Notions Outlook.

Lemma slice_to_prefix {A} (k : Z) (rows : list A) : slice_to k rows `prefix_of` rows.
Proof. unfold slice_to. destruct (Z.ltb k 0); apply prefix_take. Qed.

Lemma first_rows_prefix {A} (k : Z) (rows : list A) : first_rows k rows `prefix_of` rows.
Proof. apply prefix_take. Qed.

Lemma slice_to_negative {A} (k : Z) (rows : list A) :
  k < 0 → slice_to k rows = without_last (Z.to_nat (- k)) rows.
Proof.
  intros Hk. unfold slice_to, without_last.
  destruct (Z.ltb_spec k 0); [|lia]. f_equal. lia.
Qed.

Lemma first_rows_negative {A} (k : Z) (rows : list A) : k < 0 → first_rows k rows = [].
Proof. intros Hk. unfold first_rows. by replace (Z.to_nat _) with 0%nat by lia. Qed.

Lemma truthy_nonzero (k : Z) : k ≠ 0 → truthy (Some k) = true.
Proof. intros Hk. simpl. by destruct (Z.eqb_spec k 0). Qed.

Lemma for_each_app_raise {A B} (f : A → result B) before x after ys e :
  for_each f before = Ok ys → f x = Raise e →
  for_each f (before ++ x :: after) = Raise e.
Proof.
  revert ys. induction before as [|b before IH]; intros ys Hbefore Hx; simpl.
  - by rewrite Hx.
  - simpl in Hbefore. destruct (f b) as [y|]; [|done]. cbn in Hbefore |- *.
    destruct (for_each f before) as [ys'|] eqn:Hys; [|done].
    by rewrite (IH ys' eq_refl Hx).
Qed.

Lemma for_each_missing_row {V} (items : list (gmap string V)) item :
  item ∈ items → item !! "row" = None →
  for_each (λ item, getitem item "row") items = Raise (KeyError "row").
Proof.
  intros Hin Hnone. unfold getitem.
  induction items as [|i items IH]; [by apply elem_of_nil in Hin|].
  cbn [for_each].
  destruct (i !! "row") as [v|] eqn:Hi; [|reflexivity].
  apply elem_of_cons in Hin as [->|Hin]; [congruence|].
  cbn. by rewrite (IH Hin).
Qed.

Lemma lstrip_empty (s : string) : lstrip s = "" ↔ whitespace_only s = true.
Proof.
  induction s as [|c s IH]; simpl; [done|].
  destruct (isspace c); simpl; [done|]. split; discriminate.
Qed.

Lemma whitespace_only_lstrip (s : string) :
  whitespace_only (lstrip s) = whitespace_only s.
Proof.
  induction s as [|c s IH]; simpl; [done|].
  destruct (isspace c) eqn:Hc; simpl; [done|]. by rewrite Hc.
Qed.

Lemma whitespace_only_rev_app (s acc : string) :
  whitespace_only (String.rev_app s acc) = whitespace_only s && whitespace_only acc.
Proof.
  revert acc. induction s as [|c s IH]; intros acc; simpl; [done|].
  rewrite IH. simpl. destruct (isspace c), (whitespace_only s); done.
Qed.

Lemma rev_app_empty (s acc : string) : String.rev_app s acc = "" → s = "" ∧ acc = "".
Proof.
  revert acc. induction s as [|c s IH]; intros acc; simpl; [done|].
  intros H. by destruct (IH _ H).
Qed.

(** The test [if line.strip()] fails exactly on whitespace-only lines. *)
Lemma strip_nonempty (line : string) :
  nonempty (strip line) = negb (whitespace_only line).
Proof.
  unfold nonempty, strip, String.rev. f_equal.
  destruct (whitespace_only line) eqn:Hw.
  - apply String.eqb_eq.
    assert (lstrip (String.rev_app (lstrip line) "") = "") as ->; [|done].
    apply lstrip_empty. rewrite whitespace_only_rev_app, whitespace_only_lstrip, Hw. done.
  - apply String.eqb_neq. intros H. apply rev_app_empty in H as [H _].
    apply lstrip_empty in H.
    rewrite whitespace_only_rev_app, whitespace_only_lstrip, Hw in H. done.
Qed.

End loading_edges.

Section loading_properties.
Import Py Run Data Notions Outlook.

(** X1.  Whatever the cap (absent, zero, positive or negative), every
    loader of both scripts returns a prefix of the rows of its source:
    rows are never reordered, duplicated or invented. *)
Theorem loaders_return_a_prefix (max_samples : option Z) :
  (∀ w path rows s, jsonl_rows w path rows →
     ∃ kept, FinetuneSql.load_jsonl_dataset w path max_samples s
             = (Ok kept, after s [ReadFile path]) ∧ kept `prefix_of` rows) ∧
  (∀ w path rows s, local_rows w path rows →
     ∃ kept, FinetuneSql.load_local_dataset w path max_samples s
             = (Ok kept, after s [ReadFile path]) ∧ kept `prefix_of` rows) ∧
  (∀ w rows s, registry_rows w rows →
     ∃ kept, FinetuneSql.load_hf_dataset w max_samples s
             = (Ok kept, after s [LoadHub "b-mc2/sql-create-context" "train"]) ∧
             kept `prefix_of` rows) ∧
  (∀ w rows s, mlx_local_rows w rows →
     ∃ kept, (FinetuneMlx.prepare_data_load w max_samples false s).1 = Ok kept ∧
             kept `prefix_of` rows) ∧
  (∀ w rows s, mlx_registry_rows w rows →
     ∃ kept, (FinetuneMlx.prepare_data_load w max_samples true s).1 = Ok kept ∧
             kept `prefix_of` rows).
Proof.
  split_and!.
  - intros w path rows s H. eexists. split; [by apply load_jsonl_dataset_run|].
    destruct (truthy max_samples); [apply slice_to_prefix | done].
  - intros w path rows s H. eexists. split; [by apply load_local_dataset_run|].
    destruct (truthy max_samples); [apply slice_to_prefix | done].
  - intros w rows s H. eexists. split; [by apply load_hf_dataset_run|].
    destruct (truthy max_samples); [apply first_rows_prefix | done].
  - intros w rows s H. eexists.
    rewrite (prepare_data_load_local_run _ _ _ _ H). split; [done|].
    destruct (truthy max_samples); [apply slice_to_prefix | done].
  - intros w rows s H. eexists.
    rewrite (prepare_data_load_hf_run _ _ _ _ H). split; [done|].
    destruct (truthy max_samples); [apply first_rows_prefix | done].
Qed.

Lemma loaders_return_a_prefix_witness :
  ∃ kept,
    FinetuneSql.load_jsonl_dataset
      (Sample.sql_world (Sample.machine "Linux" "x86_64" [] 0) false true)
      "train.jsonl" (Some (-1)) start
    = (Ok kept, after start [ReadFile "train.jsonl"]) ∧
    kept `prefix_of`
      [FinetuneSql.JObject []; FinetuneSql.JObject []; FinetuneSql.JObject []].
Proof.
  refine (proj1 (loaders_return_a_prefix (Some (-1))) _ _ _ _ _).
  split; reflexivity.
Defined.

(** X2.  A negative cap is taken as a Python slice bound by the two
    file loaders, which drop the last [-cap] rows, and as a range bound
    by the registry loaders, which then select no row at all. *)
Theorem negative_cap_behaviour (cap : Z) :
  cap < 0 →
  (∀ w path rows s, jsonl_rows w path rows →
     (FinetuneSql.load_jsonl_dataset w path (Some cap) s).1
     = Ok (without_last (Z.to_nat (- cap)) rows)) ∧
  (∀ w path rows s, local_rows w path rows →
     (FinetuneSql.load_local_dataset w path (Some cap) s).1
     = Ok (without_last (Z.to_nat (- cap)) rows)) ∧
  (∀ w rows s, registry_rows w rows →
     (FinetuneSql.load_hf_dataset w (Some cap) s).1 = Ok []) ∧
  (∀ w rows s, mlx_local_rows w rows →
     (FinetuneMlx.prepare_data_load w (Some cap) false s).1
     = Ok (without_last (Z.to_nat (- cap)) rows)) ∧
  (∀ w rows s, mlx_registry_rows w rows →
     (FinetuneMlx.prepare_data_load w (Some cap) true s).1 = Ok []).
Proof.
  intros Hcap.
  assert (truthy (Some cap) = true) as Ht by (apply truthy_nonzero; lia).
  split_and!.
  - intros w path rows s H. rewrite (load_jsonl_dataset_run _ _ _ _ _ H), Ht.
    simpl. by rewrite slice_to_negative.
  - intros w path rows s H. rewrite (load_local_dataset_run _ _ _ _ _ H), Ht.
    simpl. by rewrite slice_to_negative.
  - intros w rows s H. rewrite (load_hf_dataset_run _ _ _ _ H), Ht.
    simpl. by rewrite first_rows_negative.
  - intros w rows s H. rewrite (prepare_data_load_local_run _ _ _ _ H), Ht.
    simpl. by rewrite slice_to_negative.
  - intros w rows s H. rewrite (prepare_data_load_hf_run _ _ _ _ H), Ht.
    simpl. by rewrite first_rows_negative.
Qed.

Lemma negative_cap_behaviour_witness :
  -1 < 0 ∧
  (FinetuneSql.load_local_dataset
     (Sample.sql_world (Sample.machine "Linux" "x86_64" [] 0) false true)
     "rows.json" (Some (-1)) start).1
  = Ok (take 2 Sample.three_rows) ∧
  (FinetuneSql.load_hf_dataset
     (Sample.sql_world (Sample.machine "Linux" "x86_64" [] 0) false true)
     (Some (-1)) start).1
  = Ok [].
Proof.
  split; [lia|].
  destruct (negative_cap_behaviour (-1) ltac:(lia)) as (_ & Hlocal & Hhub & _).
  split.
  - refine (Hlocal _ "rows.json" Sample.three_rows start _).
    split; [reflexivity|].
    exists (Sample.document Sample.three_rows),
      ((λ r, {[ "row" := r ]}) <$> Sample.three_rows).
    split_and!; reflexivity.
  - refine (Hhub _ Sample.three_rows start _). split; reflexivity.
Defined.

(** X3.  The local-JSON loader looks up "rows" and then the "row" entry
    of the items it keeps only: a document without "rows" raises
    [KeyError('rows')]; with a cap of at least 1 an item without "row"
    raises [KeyError('row')] when it is among the first [cap] items and
    is never looked at when it comes later. *)
Theorem load_local_dataset_reads_kept_items_only (w : FinetuneSql.world)
    (path : string) (d : gmap string (list (gmap string Example))) (cap : Z)
    (s : io FinetuneSql.lib_call) :
  FinetuneSql.fails w (ReadFile path) = None →
  FinetuneSql.json_load w path = Ok d →
  0 < cap →
  (d !! "rows" = None →
     ∀ max_samples,
       FinetuneSql.load_local_dataset w path max_samples s
       = (Raise (KeyError "rows"), after s [ReadFile path])) ∧
  (∀ items rows,
     d !! "rows" = Some items →
     for_each (λ item, getitem item "row") (take (Z.to_nat cap) items) = Ok rows →
     FinetuneSql.load_local_dataset w path (Some cap) s
     = (Ok rows, after s [ReadFile path])) ∧
  (∀ items item,
     d !! "rows" = Some items →
     item ∈ take (Z.to_nat cap) items → item !! "row" = None →
     FinetuneSql.load_local_dataset w path (Some cap) s
     = (Raise (KeyError "row"), after s [ReadFile path])).
Proof.
  intros Hread Hload Hcap.
  assert (∀ items : list (gmap string Example),
            slice_to cap items = take (Z.to_nat cap) items) as Hslice.
  { intros items. rewrite slice_to_positive by done. unfold first_rows.
    destruct (Z.le_gt_cases cap (Z.of_nat (length items))).
    - by rewrite Z.min_l by lia.
    - rewrite Z.min_r, Nat2Z.id, firstn_all by lia. symmetry. apply take_ge. lia. }
  assert (truthy (Some cap) = true) as Ht by (apply truthy_nonzero; lia).
  unfold FinetuneSql.load_local_dataset.
  split_and!.
  - intros Hrows max_samples.
    rewrite (run_bind_ok _ _ _ _ _ (run_perform_ok _ _ _ Hread)), Hload.
    rewrite run_bind. unfold lift at 1. rewrite run_bind.
    unfold getitem at 1. by rewrite Hrows.
  - intros items rows Hrows Hitems.
    rewrite (run_bind_ok _ _ _ _ _ (run_perform_ok _ _ _ Hread)), Hload.
    rewrite run_bind. unfold lift at 1. rewrite run_bind.
    unfold getitem at 1. rewrite Hrows. unfold lift. cbv zeta.
    rewrite Ht. simpl default. by rewrite Hslice, Hitems.
  - intros items item Hrows Hin Hnone.
    rewrite (run_bind_ok _ _ _ _ _ (run_perform_ok _ _ _ Hread)), Hload.
    rewrite run_bind. unfold lift at 1. rewrite run_bind.
    unfold getitem at 1. rewrite Hrows. unfold lift. cbv zeta.
    rewrite Ht. simpl default.
    by rewrite Hslice, (for_each_missing_row _ _ Hin Hnone).
Qed.

Lemma load_local_dataset_reads_kept_items_only_witness :
  0 < 2 ∧
  FinetuneSql.load_local_dataset
    (sql_world_with (Sample.machine "Linux" "x86_64" [] 0) (λ a, None) [] (λ line, Ok FinetuneSql.JNull)
       (Ok {[ "rows" := [ {[ "row" := Sample.example "s1" "q1" "a1" ]};
                          {[ "row" := Sample.example "s2" "q2" "a2" ]};
                          ∅ ] ]}))
    "rows.json" (Some 2) start
  = (Ok [Sample.example "s1" "q1" "a1"; Sample.example "s2" "q2" "a2"],
     after start [ReadFile "rows.json"]).
Proof.
  split; [lia|].
  refine (proj1 (proj2 (load_local_dataset_reads_kept_items_only _ "rows.json"
                          {[ "rows" := [ {[ "row" := Sample.example "s1" "q1" "a1" ]};
                                         {[ "row" := Sample.example "s2" "q2" "a2" ]};
                                         ∅ ] ]} 2 start _ _ _)) _ _ _ _);
    first [ reflexivity | lia ].
Defined.

(** X4.  The JSONL loader parses every non-blank line before it applies
    the cap: a line that does not parse makes the load raise the
    parser's error whatever the cap, also when the line lies beyond it. *)
Theorem load_jsonl_dataset_parses_every_line (w : FinetuneSql.world) (path : string)
    (before after_ : list string) (line : string) (parsed : list FinetuneSql.json)
    (e : exn) (max_samples : option Z) (s : io FinetuneSql.lib_call) :
  FinetuneSql.fails w (ReadFile path) = None →
  List.filter (λ line, negb (whitespace_only line)) (FinetuneSql.file_lines w path)
  = before ++ line :: after_ →
  for_each (FinetuneSql.json_loads w) before = Ok parsed →
  FinetuneSql.json_loads w line = Raise e →
  FinetuneSql.load_jsonl_dataset w path max_samples s
  = (Raise e, after s [ReadFile path]).
Proof.
  intros Hread Hlines Hbefore Hline. unfold FinetuneSql.load_jsonl_dataset.
  rewrite (run_bind_ok _ _ _ _ _ (run_perform_ok _ _ _ Hread)).
  rewrite (List.filter_ext _ (λ line, negb (whitespace_only line)))
    by (intros l; apply strip_nonempty).
  rewrite Hlines, (for_each_app_raise _ _ _ _ _ _ Hbefore Hline). done.
Qed.

Lemma load_jsonl_dataset_parses_every_line_witness :
  FinetuneSql.load_jsonl_dataset
    (sql_world_with (Sample.machine "Linux" "x86_64" [] 0) (λ a, None)
       ["{}" +:+ nl; nl; "oops" +:+ nl]
       (λ line, if String.prefix "{" line then Ok (FinetuneSql.JObject [])
                else Raise (Raised ValueError "Expecting value"))
       (Ok ∅))
    "train.jsonl" (Some 1) start
  = (Raise (Raised ValueError "Expecting value"), after start [ReadFile "train.jsonl"]).
Proof.
  refine (load_jsonl_dataset_parses_every_line _ "train.jsonl"
            ["{}" +:+ nl] [] ("oops" +:+ nl) [FinetuneSql.JObject []] _ (Some 1) start
            _ _ _ _); reflexivity.
Defined.

(** X5.  A line is skipped by the JSONL loader exactly when it consists
    of whitespace only; a file that is empty or holds only such lines
    loads as the empty dataset, whatever the parser does and whatever
    the cap. *)
Theorem load_jsonl_dataset_skips_blank_lines (w : FinetuneSql.world) (path : string)
    (max_samples : option Z) (s : io FinetuneSql.lib_call) :
  FinetuneSql.fails w (ReadFile path) = None →
  (∀ rows,
     jsonl_rows w path rows ↔
     for_each (FinetuneSql.json_loads w)
       (List.filter (λ line, negb (whitespace_only line)) (FinetuneSql.file_lines w path))
     = Ok rows) ∧
  (Forall (λ line, whitespace_only line = true) (FinetuneSql.file_lines w path) →
   FinetuneSql.load_jsonl_dataset w path max_samples s
   = (Ok [], after s [ReadFile path])).
Proof.
  intros Hread.
  assert (∀ lines, List.filter (λ line, nonempty (strip line)) lines
                   = List.filter (λ line, negb (whitespace_only line)) lines) as Hfilter.
  { intros lines. apply List.filter_ext. intros l. apply strip_nonempty. }
  split.
  - intros rows. unfold jsonl_rows. rewrite Hfilter. tauto.
  - intros Hblank.
    assert (jsonl_rows w path []) as Hrows.
    { split; [done|]. rewrite Hfilter.
      induction Hblank as [|l lines Hl _ IH]; [done|].
      simpl. by rewrite Hl. }
    rewrite (load_jsonl_dataset_run _ _ _ _ _ Hrows).
    destruct (truthy max_samples); [|done].
    by rewrite (prefix_nil_inv _ (slice_to_prefix (default 0 max_samples) [])).
Qed.

Lemma load_jsonl_dataset_skips_blank_lines_witness :
  FinetuneSql.load_jsonl_dataset
    (sql_world_with (Sample.machine "Linux" "x86_64" [] 0) (λ a, None)
       [nl; "  " +:+ nl; ""]
       (λ line, Raise (Raised ValueError "Expecting value"))
       (Ok ∅))
    "train.jsonl" None start
  = (Ok [], after start [ReadFile "train.jsonl"]).
Proof.
  refine (proj2 (load_jsonl_dataset_skips_blank_lines _ "train.jsonl" None start _) _).
  - reflexivity.
  - repeat constructor.
Defined.

End loading_properties.

(** ** Formatting: missing columns, agreement of the two formatters *)
Section formatting_properties.
Import Py Run Data Notions Outlook.



Lemma well_formed_triple (e : Example) :
  well_formed e ↔ ∃ c q a, triple e = (Some c, Some q, Some a).
Proof.
  unfold well_formed, triple. split.
  - intros ([c ->] & [q ->] & [a ->]). eauto.
  - intros (c & q & a & [= -> -> ->]). eauto.
Qed.

(** X6.  An example is formatted exactly when it has the three
    columns; otherwise both formatters raise a [KeyError] naming the
    first missing column in the order context, question, answer.
    Columns other than these three have no influence on the result. *)
Theorem formatters_need_three_columns (e : Example) :
  (well_formed e ↔ ∃ r, FinetuneSql.format_for_sft e = Ok r) ∧
  (well_formed e ↔ ∃ r, FinetuneMlx.to_chat_format e = Ok r) ∧
  (e !! "context" = None →
     FinetuneSql.format_for_sft e = Raise (KeyError "context") ∧
     FinetuneMlx.to_chat_format e = Raise (KeyError "context")) ∧
  (is_Some (e !! "context") → e !! "question" = None →
     FinetuneSql.format_for_sft e = Raise (KeyError "question") ∧
     FinetuneMlx.to_chat_format e = Raise (KeyError "question")) ∧
  (is_Some (e !! "context") → is_Some (e !! "question") → e !! "answer" = None →
     FinetuneSql.format_for_sft e = Raise (KeyError "answer") ∧
     FinetuneMlx.to_chat_format e = Raise (KeyError "answer")) ∧
  (∀ e' : Example, triple e = triple e' →
     FinetuneSql.format_for_sft e = FinetuneSql.format_for_sft e' ∧
     FinetuneMlx.to_chat_format e = FinetuneMlx.to_chat_format e').
Proof.
  rewrite well_formed_triple.
  split_and!.
  - rewrite format_for_sft_unfold. unfold triple.
    destruct (e !! "context"), (e !! "question"), (e !! "answer");
      split; (try by intros (? & ? & ? & [=])); (try by intros [? [=]]); eauto.
  - rewrite to_chat_format_unfold. unfold triple.
    destruct (e !! "context"), (e !! "question"), (e !! "answer");
      split; (try by intros (? & ? & ? & [=])); (try by intros [? [=]]); eauto.
  - intros Hc. rewrite format_for_sft_unfold, to_chat_format_unfold.
    unfold triple. by rewrite Hc.
  - intros [c Hc] Hq. rewrite format_for_sft_unfold, to_chat_format_unfold.
    unfold triple. by rewrite Hc, Hq.
  - intros [c Hc] [q Hq] Ha. rewrite format_for_sft_unfold, to_chat_format_unfold.
    unfold triple. by rewrite Hc, Hq, Ha.
  - intros e' He'. by rewrite !format_for_sft_unfold, !to_chat_format_unfold, He'.
Qed.

Lemma formatters_need_three_columns_witness :
  FinetuneSql.format_for_sft {[ "context" := "CREATE TABLE t (x INT)"; "answer" := "SELECT 1" ]}
  = Raise (KeyError "question") ∧
  FinetuneMlx.to_chat_format {[ "context" := "CREATE TABLE t (x INT)"; "answer" := "SELECT 1" ]}
  = Raise (KeyError "question").
Proof.
  refine (proj1 (proj2 (proj2 (proj2 (formatters_need_three_columns _)))) _ _).
  - eexists. reflexivity.
  - reflexivity.
Defined.

(** X7.  The two scripts build the same conversation: whenever
    [format_for_sft] returns a record, [to_chat_format] returns the
    record whose messages are that record's prompt followed by its
    completion, a user turn and then an assistant turn holding the
    answer verbatim. *)
Theorem formatters_agree (e : Example) (r : FinetuneSql.sft_record) :
  FinetuneSql.format_for_sft e = Ok r →
  FinetuneMlx.to_chat_format e
  = Ok (FinetuneMlx.ChatRecord (FinetuneSql.prompt r ++ FinetuneSql.completion r)) ∧
  role <$> (FinetuneSql.prompt r ++ FinetuneSql.completion r) = ["user"; "assistant"] ∧
  (content <$> FinetuneSql.completion r) = option_list (e !! "answer").
Proof.
  rewrite format_for_sft_unfold, to_chat_format_unfold. unfold triple.
  destruct (e !! "context") as [c|]; [|done].
  destruct (e !! "question") as [q|]; [|done].
  destruct (e !! "answer") as [a|]; [|done].
  by intros [= <-].
Qed.

Lemma formatters_agree_witness :
  FinetuneMlx.to_chat_format (Sample.example "CREATE TABLE t (x INT)" "How many?" "SELECT 1")
  = Ok (FinetuneMlx.ChatRecord
          [ Message "user" (prompt_of "CREATE TABLE t (x INT)" "How many?");
            Message "assistant" "SELECT 1" ]).
Proof.
  refine (proj1 (formatters_agree
                   (Sample.example "CREATE TABLE t (x INT)" "How many?" "SELECT 1")
                   (FinetuneSql.SftRecord
                      [Message "user" (prompt_of "CREATE TABLE t (x INT)" "How many?")]
                      [Message "assistant" "SELECT 1"]) _)).
  reflexivity.
Defined.



End formatting_properties.

(** ** The training configuration across machines *)
Section configuration_properties.
Import Py Run Data Notions Outlook FinetuneSql.

(** X9.  The train and eval batch sizes are always equal: the
    [--batch-size] value when given, else 2 on a Mac with MPS, 4 with
    CUDA and 1 on CPU.  bf16 is on exactly when the CUDA profile is
    selected, fp16 is never on, and memory pinning is off exactly on a
    Mac with MPS.  Epochs, learning rate and output directory are the
    command line's, with defaults 3, 2e-5 and ./.finetune/qwen3-sql. *)
Theorem training_args_follow_machine_and_command_line (w : world) (cli : Cli.t) :
  let device_info := get_device_info w in
  let config := training_args (parse_args device_info cli) device_info in
  let mac_with_mps :=
    String.eqb (platform_system (os w)) "Darwin" && mps_is_available w in
  SFTConfig.per_device_eval_batch_size config
  = SFTConfig.per_device_train_batch_size config ∧
  SFTConfig.per_device_train_batch_size config
  = match Cli.batch_size cli with
    | Some n => n
    | None => if mac_with_mps then 2 else if cuda_is_available w then 4 else 1
    end ∧
  SFTConfig.bf16 config = negb mac_with_mps && cuda_is_available w ∧
  SFTConfig.fp16 config = false ∧
  SFTConfig.dataloader_pin_memory config = negb mac_with_mps ∧
  SFTConfig.num_train_epochs config = default 3 (Cli.epochs cli) ∧
  SFTConfig.learning_rate config = default (2 # 100000) (Cli.lr cli) ∧
  SFTConfig.output_dir config = default "./.finetune/qwen3-sql" (Cli.output_dir cli).
Proof.
  cbv zeta. unfold get_device_info.
  destruct (String.eqb (platform_system (os w)) "Darwin"), (mps_is_available w),
    (cuda_is_available w); cbn; destruct (Cli.batch_size cli); repeat split; reflexivity.
Qed.

End configuration_properties.

(** Runs the [print]s and returns at the head of a sequence. *)
Ltac run_io :=
  repeat first
    [ rewrite (run_bind_ok _ _ _ _ _ (run_print _ _))
    | rewrite run_ret_bind
    | rewrite run_bind_assoc ];
  rewrite ?run_print, ?extended_extended.

(** ** The converter: relays, branches and the handler of [main] *)
Section conversion_properties.
Import Py Run Data Notions Outlook FinetuneSql.

Lemma run_with_filtered_stderr_run (w : world) cmd env p (s : io lib_call) :
  spawn (os w) cmd env = Some p →
  _run_with_filtered_stderr w cmd env s
  = (if negb (Z.eqb (proc_returncode p) 0)
     then Raise (CalledProcessError (proc_returncode p) cmd)
     else Ok (),
     extended s (proc_stdout p) (passed p) [Spawn cmd env]).
Proof.
  intros Hp.
  destruct (run_with_filtered_stderr_state w cmd env p s Hp) as [Hs Hr].
  destruct (_run_with_filtered_stderr w cmd env s) as [r s'].
  simpl in Hs, Hr. by subst.
Qed.

(** X10.  The relay never filters standard output: every line the
    subprocess writes there is passed on unchanged and in order, also
    when it contains one of the filtered substrings.  The call returns
    exactly when the subprocess exited with 0; otherwise it raises
    [CalledProcessError] with the exit code and the command line, after
    both streams have been relayed.  One subprocess is started. *)
Theorem run_with_filtered_stderr_relays_and_checks (w : world) (cmd : list string)
    (env : list (string * string)) (p : process) (s : io lib_call) :
  spawn (os w) cmd env = Some p →
  stdout (_run_with_filtered_stderr w cmd env s).2 = stdout s ++ proc_stdout p ∧
  actions (_run_with_filtered_stderr w cmd env s).2 = actions s ++ [Spawn cmd env] ∧
  ((_run_with_filtered_stderr w cmd env s).1 = Ok () ↔ proc_returncode p = 0) ∧
  ((_run_with_filtered_stderr w cmd env s).1
   = Raise (CalledProcessError (proc_returncode p) cmd) ↔ proc_returncode p ≠ 0).
Proof.
  intros Hp. rewrite (run_with_filtered_stderr_run w cmd env p s Hp). simpl.
  destruct (Z.eqb_spec (proc_returncode p) 0) as [Hrc|Hrc]; simpl;
    split_and!; try done; split; try done; intros; congruence.
Qed.

Lemma run_with_filtered_stderr_relays_and_checks_witness :
  stdout
    (_run_with_filtered_stderr
       (sql_world_with
          (machine_with "Linux" "x86_64" (λ path, false)
             (λ cmd, Some (finished ["To disable this warning, read on"; "written"] [] 3)))
          (λ a, None) [] (λ line, Ok JNull) (Ok ∅))
       ["convert"] [] start).2
  = ["To disable this warning, read on"; "written"] ∧
  (_run_with_filtered_stderr
     (sql_world_with
        (machine_with "Linux" "x86_64" (λ path, false)
           (λ cmd, Some (finished ["To disable this warning, read on"; "written"] [] 3)))
        (λ a, None) [] (λ line, Ok JNull) (Ok ∅))
     ["convert"] [] start).1
  = Raise (CalledProcessError 3 ["convert"]).
Proof.
  destruct (run_with_filtered_stderr_relays_and_checks
              (sql_world_with
                 (machine_with "Linux" "x86_64" (λ path, false)
                    (λ cmd, Some (finished ["To disable this warning, read on"; "written"] [] 3)))
                 (λ a, None) [] (λ line, Ok JNull) (Ok ∅))
              ["convert"] [] _ start eq_refl) as (Hout & _ & _ & Hraise).
  split; [exact Hout | by apply Hraise].
Defined.

Lemma get_convert_script_run (w : world) (s : io lib_call) :
  fails w (Mkdir (cache_dir (os w))) = None →
  (path_exists (os w) (cached_script (os w)) = false →
   fails w (Urlretrieve CONVERT_SCRIPT_URL (cached_script (os w))) = None) →
  get_convert_script w s
  = (Ok (cached_script (os w)),
     if path_exists (os w) (cached_script (os w))
     then after s [Mkdir (cache_dir (os w))]
     else extended s
            (printed ["Downloading conversion script from " +:+ CONVERT_SCRIPT_URL +:+ "..."])
            []
            [Mkdir (cache_dir (os w));
             Urlretrieve CONVERT_SCRIPT_URL (cached_script (os w))]).
Proof.
  intros Hmk Hget. unfold get_convert_script. cbv zeta.
  fold (cache_dir (os w)). fold (cached_script (os w)).
  rewrite (run_bind_ok _ _ _ _ _ (run_perform_ok _ _ _ Hmk)).
  destruct (path_exists (os w) (cached_script (os w))) eqn:Hcached; cbn [negb].
  - reflexivity.
  - rewrite run_bind_assoc. run_io.
    rewrite (run_bind_ok _ _ _ _ _ (run_perform_ok _ _ _ (Hget eq_refl))).
    unfold mret, M_ret.
    by rewrite !after_extended, !extended_extended.
Qed.

Lemma run_process_run {X} (h : host) cmd env (s : io X) :
  run_process h cmd env s
  = (match spawn h cmd env with
     | Some p => Ok p
     | None => Raise (Raised FileNotFoundError (default "" (head cmd)))
     end,
     after s [Spawn cmd env]).
Proof.
  unfold run_process. rewrite run_bind, (run_perform_ok _ _ _ eq_refl).
  by destruct (spawn h cmd env).
Qed.

(** X11.  On a machine that is not ARM and on which [docker --version]
    exits with 0, the conversion runs the containerized converter and
    nothing else: the converter script is neither looked up nor
    downloaded.  It returns the absolute output path when the container
    exits with 0 and raises [CalledProcessError] otherwise. *)
Theorem convert_to_gguf_uses_docker_off_arm (w : world)
    (model_path output_path quantization : string) (probe p : process)
    (s : io lib_call) :
  fails w (Makedirs (dirname (os w) (abspath (os w) output_path))) = None →
  platform_machine (os w) ∉ ["arm64"; "aarch64"] →
  spawn (os w) ["docker"; "--version"] [] = Some probe →
  proc_returncode probe = 0 →
  spawn (os w) (docker_command (os w) model_path output_path quantization)
    conversion_env = Some p →
  convert_to_gguf w model_path output_path quantization s
  = (if Z.eqb (proc_returncode p) 0
     then Ok (abspath (os w) output_path)
     else Raise (CalledProcessError (proc_returncode p)
                   (docker_command (os w) model_path output_path quantization)),
     extended s
       (printed ["Using Docker image: " +:+ DOCKER_IMAGE] ++ proc_stdout p)
       (passed p)
       [ Makedirs (dirname (os w) (abspath (os w) output_path));
         Spawn ["docker"; "--version"] [];
         Spawn (docker_command (os w) model_path output_path quantization)
           conversion_env ]).
Proof.
  intros Hmk Harm Hprobe Hrc0 Hp. unfold convert_to_gguf. cbv zeta.
  rewrite (run_bind_ok _ _ _ _ _ (run_perform_ok _ _ _ Hmk)).
  rewrite run_bind, run_process_run, Hprobe, Hrc0.
  rewrite (bool_decide_eq_false_2 _ Harm). cbn [Z.eqb negb andb].
  rewrite run_bind_assoc. run_io.
  change (_run_with_filtered_stderr w ?c ?e)
    with (_run_with_filtered_stderr w
            (docker_command (os w) model_path output_path quantization) conversion_env).
  rewrite run_bind, (run_with_filtered_stderr_run _ _ _ _ _ Hp).
  rewrite !after_extended, !extended_extended.
  by destruct (Z.eqb (proc_returncode p) 0).
Qed.

Lemma convert_to_gguf_uses_docker_off_arm_witness :
  convert_to_gguf
    (sql_world_with
       (machine_with "Linux" "x86_64" (λ path, false)
          (λ cmd, Some (finished ["converted"] [] 0)))
       (λ a, None) [] (λ line, Ok JNull) (Ok ∅))
    "out-final" "out-final.gguf" "q8_0" start
  = (Ok "out-final.gguf",
     extended start
       (printed ["Using Docker image: " +:+ DOCKER_IMAGE] ++ ["converted"]) []
       [ Makedirs "/repo/out";
         Spawn ["docker"; "--version"] [];
         Spawn
           (docker_command
              (machine_with "Linux" "x86_64" (λ path, false)
                 (λ cmd, Some (finished ["converted"] [] 0)))
              "out-final" "out-final.gguf" "q8_0")
           conversion_env ]).
Proof.
  refine (convert_to_gguf_uses_docker_off_arm
            (sql_world_with
               (machine_with "Linux" "x86_64" (λ path, false)
                  (λ cmd, Some (finished ["converted"] [] 0)))
               (λ a, None) [] (λ line, Ok JNull) (Ok ∅))
            "out-final" "out-final.gguf" "q8_0" (finished ["converted"] [] 0)
            (finished ["converted"] [] 0) start _ _ _ _ _); try reflexivity.
  apply (bool_decide_eq_false_1 _). reflexivity.
Defined.

(** X12.  On an ARM machine, or when [docker --version] exits with a
    non-zero code, the conversion runs the cached converter script
    locally: the script is downloaded only when it is not in the cache
    yet, and the interpreter is the virtual environment's when that
    exists and [python3] otherwise.  No container is started. *)
Theorem convert_to_gguf_falls_back_to_local_script (w : world)
    (model_path output_path quantization : string) (probe p : process)
    (s : io lib_call) :
  fails w (Makedirs (dirname (os w) (abspath (os w) output_path))) = None →
  fails w (Mkdir (cache_dir (os w))) = None →
  (path_exists (os w) (cached_script (os w)) = false →
   fails w (Urlretrieve CONVERT_SCRIPT_URL (cached_script (os w))) = None) →
  spawn (os w) ["docker"; "--version"] [] = Some probe →
  proc_returncode probe ≠ 0 ∨ platform_machine (os w) ∈ ["arm64"; "aarch64"] →
  spawn (os w) (local_command (os w) model_path output_path quantization)
    conversion_env = Some p →
  convert_to_gguf w model_path output_path quantization s
  = (if Z.eqb (proc_returncode p) 0
     then Ok (abspath (os w) output_path)
     else Raise (CalledProcessError (proc_returncode p)
                   (local_command (os w) model_path output_path quantization)),
     extended s
       (printed
          ((if path_exists (os w) (cached_script (os w)) then []
            else ["Downloading conversion script from " +:+ CONVERT_SCRIPT_URL +:+ "..."])
           ++ ["Using local conversion script: " +:+ cached_script (os w)])
        ++ proc_stdout p)
       (passed p)
       ([ Makedirs (dirname (os w) (abspath (os w) output_path));
          Spawn ["docker"; "--version"] [];
          Mkdir (cache_dir (os w)) ]
        ++ (if path_exists (os w) (cached_script (os w)) then []
            else [Urlretrieve CONVERT_SCRIPT_URL (cached_script (os w))])
        ++ [ Spawn (local_command (os w) model_path output_path quantization)
               conversion_env ])).
Proof.
  intros Hmk Hcache Hget Hprobe Hbranch Hp. unfold convert_to_gguf. cbv zeta.
  rewrite (run_bind_ok _ _ _ _ _ (run_perform_ok _ _ _ Hmk)).
  rewrite run_bind, run_process_run, Hprobe.
  assert (Z.eqb (proc_returncode probe) 0
          && negb (bool_decide (platform_machine (os w) ∈ ["arm64"; "aarch64"]))
          = false) as ->.
  { destruct Hbranch as [Hrc|Harm].
    - by destruct (Z.eqb_spec (proc_returncode probe) 0).
    - rewrite (bool_decide_eq_true_2 _ Harm). apply andb_false_r. }
  rewrite run_bind_assoc.
  rewrite (run_bind_ok _ _ _ _ _ (get_convert_script_run w _ Hcache Hget)).
  run_io.
  change (_run_with_filtered_stderr w ?c ?e)
    with (_run_with_filtered_stderr w
            (local_command (os w) model_path output_path quantization) conversion_env).
  rewrite run_bind, (run_with_filtered_stderr_run _ _ _ _ _ Hp).
  destruct (path_exists (os w) (cached_script (os w)));
    rewrite !after_extended, !extended_extended;
    by destruct (Z.eqb (proc_returncode p) 0).
Qed.

Lemma convert_to_gguf_falls_back_to_local_script_witness :
  (convert_to_gguf
     (sql_world_with
        (machine_with "Darwin" "arm64"
           (λ path, String.eqb path "/repo/src/finetune/.cache/convert_hf_to_gguf.py")
           (λ cmd, Some (finished [] [] 0)))
        (λ a, None) [] (λ line, Ok JNull) (Ok ∅))
     "out-final" "out-final.gguf" "q8_0" start).1
  = Ok "out-final.gguf" ∧
  actions
    (convert_to_gguf
       (sql_world_with
          (machine_with "Darwin" "arm64"
             (λ path, String.eqb path "/repo/src/finetune/.cache/convert_hf_to_gguf.py")
             (λ cmd, Some (finished [] [] 0)))
          (λ a, None) [] (λ line, Ok JNull) (Ok ∅))
       "out-final" "out-final.gguf" "q8_0" start).2
  = [ Makedirs "/repo/out";
      Spawn ["docker"; "--version"] [];
      Mkdir "/repo/src/finetune/.cache";
      Spawn [ "python3"; "-W"; "ignore::UserWarning";
              "/repo/src/finetune/.cache/convert_hf_to_gguf.py";
              "out-final"; "--outfile"; "out-final.gguf"; "--outtype"; "q8_0" ]
        conversion_env ].
Proof.
  rewrite (convert_to_gguf_falls_back_to_local_script
             (sql_world_with
                (machine_with "Darwin" "arm64"
                   (λ path, String.eqb path "/repo/src/finetune/.cache/convert_hf_to_gguf.py")
                   (λ cmd, Some (finished [] [] 0)))
                (λ a, None) [] (λ line, Ok JNull) (Ok ∅))
             "out-final" "out-final.gguf" "q8_0" (finished [] [] 0) (finished [] [] 0)
             start eq_refl eq_refl (λ _, eq_refl) eq_refl
             (or_intror (list_elem_of_here _ _)) eq_refl).
  split; reflexivity.
Defined.

Lemma run_ret {X A} (a : A) (s : io X) : (mret a : M X A) s = (Ok a, s).
Proof. done. Qed.

Lemma gguf_path_truthy (final_path : string) :
  truthy_str (Some (final_path +:+ ".gguf")) = true.
Proof. by destruct final_path. Qed.

(** X13.  What [main] does after the model is saved, when conversion is
    requested, is decided by how [convert_to_gguf] ends.  When it
    returns, the saved GGUF path is printed and the summary shows it
    with the LMStudio and Ollama commands.  When it raises an exception
    that is a [RuntimeError], one warning line with the exception's
    text is printed and the summary shows the manual-conversion hint.
    Any other exception leaves [main] as it is, with nothing more
    printed. *)
Theorem main_convert_and_report_by_outcome (w : world) (args : Args.t)
    (final_path : string) (s : io lib_call) :
  Args.no_gguf args = false →
  main_convert_and_report w args final_path s
  = match convert_to_gguf w final_path (final_path +:+ ".gguf") (Args.gguf_type args)
            (extended s (printed [""; "Converting to GGUF format..."]) [] []) with
    | (Ok _, s') =>
        (Ok (),
         extended s'
           (printed
              [ "GGUF model saved to: " +:+ abspath (os w) (final_path +:+ ".gguf");
                "";
                str_mul "=" 50;
                "Training complete!";
                "Model saved to: " +:+ abspath (os w) final_path;
                "GGUF model: " +:+ abspath (os w) (final_path +:+ ".gguf");
                str_mul "=" 50;
                "";
                "Next steps - Use your fine-tuned model:";
                "";
                "  LMStudio:";
                "    lms import " +:+ abspath (os w) (final_path +:+ ".gguf")
                  +:+ " --user-repo local/qwen3-sql";
                "    lms load local/qwen3-sql --gpu max";
                "";
                "  Ollama:";
                "    echo 'FROM " +:+ abspath (os w) (final_path +:+ ".gguf")
                  +:+ "' > Modelfile";
                "    ollama create qwen3-sql -f Modelfile";
                "    ollama run qwen3-sql";
                "" ])
           [] [])
    | (Raise e, s') =>
        if isinstance e RuntimeError then
          (Ok (),
           extended s'
             (printed
                [ "Warning: GGUF conversion failed: " +:+ str_exn (os w) e;
                  "";
                  str_mul "=" 50;
                  "Training complete!";
                  "Model saved to: " +:+ abspath (os w) final_path;
                  str_mul "=" 50;
                  "";
                  "Next steps - Use your fine-tuned model:";
                  "";
                  "  Convert to GGUF manually:";
                  "    node packages/text2sql/src/finetune/convert-to-gguf.ts "
                    +:+ final_path +:+ " " +:+ final_path +:+ ".gguf";
                  "" ])
             [] [])
        else (Raise e, s')
    end.
Proof.
  intros Hgguf. unfold main_convert_and_report. rewrite Hgguf. cbn [negb]. cbv zeta.
  rewrite run_bind_assoc. run_io. rewrite run_bind. unfold try_except.
  rewrite run_bind.
  destruct (convert_to_gguf w final_path (final_path +:+ ".gguf") (Args.gguf_type args) _)
    as [[out|e] s'].
  - run_io. rewrite run_ret. cbv beta iota.
    rewrite gguf_path_truthy. cbn [default]. run_io. done.
  - destruct (isinstance e RuntimeError); [|done].
    run_io. rewrite run_ret. cbv beta iota. cbn [truthy_str]. run_io. done.
Qed.

Lemma main_convert_and_report_by_outcome_witness :
  (main_convert_and_report
     (sql_world_with
        (machine_with "Linux" "x86_64" (λ path, false) (λ cmd, Some (finished [] [] 0)))
        (λ a, match a with
              | Makedirs _ => Some (Raised RuntimeError "disk full")
              | _ => None
              end)
        [] (λ line, Ok JNull) (Ok ∅))
     (parse_args (DeviceInfo.Make "cuda" true false 4 false)
        (Sample.sql_cli None None false))
     "out-final" start).1
  = Ok () ∧
  stdout
    (main_convert_and_report
       (sql_world_with
          (machine_with "Linux" "x86_64" (λ path, false) (λ cmd, Some (finished [] [] 0)))
          (λ a, match a with
                | Makedirs _ => Some (Raised RuntimeError "disk full")
                | _ => None
                end)
          [] (λ line, Ok JNull) (Ok ∅))
       (parse_args (DeviceInfo.Make "cuda" true false 4 false)
          (Sample.sql_cli None None false))
       "out-final" start).2
  = printed
      [ ""; "Converting to GGUF format...";
        "Warning: GGUF conversion failed: disk full";
        "";
        str_mul "=" 50;
        "Training complete!";
        "Model saved to: out-final";
        str_mul "=" 50;
        "";
        "Next steps - Use your fine-tuned model:";
        "";
        "  Convert to GGUF manually:";
        "    node packages/text2sql/src/finetune/convert-to-gguf.ts out-final out-final.gguf";
        "" ].
Proof.
  rewrite (main_convert_and_report_by_outcome
             (sql_world_with
                (machine_with "Linux" "x86_64" (λ path, false)
                   (λ cmd, Some (finished [] [] 0)))
                (λ a, match a with
                      | Makedirs _ => Some (Raised RuntimeError "disk full")
                      | _ => None
                      end)
                [] (λ line, Ok JNull) (Ok ∅))
             (parse_args (DeviceInfo.Make "cuda" true false 4 false)
                (Sample.sql_cli None None false))
             "out-final" start eq_refl).
  split; vm_compute; reflexivity.
Defined.

(** X14.  With [--no-gguf] nothing is converted: after the model is
    saved [main] performs no action, cannot raise, and prints the
    summary with the manual-conversion hint. *)
Theorem no_gguf_skips_conversion (w : world) (args : Args.t) (final_path : string)
    (s : io lib_call) :
  Args.no_gguf args = true →
  main_convert_and_report w args final_path s
  = (Ok (),
     extended s
       (printed
          [ "";
            str_mul "=" 50;
            "Training complete!";
            "Model saved to: " +:+ abspath (os w) final_path;
            str_mul "=" 50;
            "";
            "Next steps - Use your fine-tuned model:";
            "";
            "  Convert to GGUF manually:";
            "    node packages/text2sql/src/finetune/convert-to-gguf.ts "
              +:+ final_path +:+ " " +:+ final_path +:+ ".gguf";
            "" ])
       [] []).
Proof.
  intros Hgguf. unfold main_convert_and_report. rewrite Hgguf. cbn [negb].
  run_io. cbn [truthy_str]. run_io. done.
Qed.

Lemma no_gguf_skips_conversion_witness :
  actions
    (main_convert_and_report
       (Sample.sql_world (Sample.machine "Linux" "x86_64" [] 1) false true)
       (Args.Make 3 4 (2 # 100000) "out" None None false "Qwen/Qwen3-0.6B" (1 # 10)
          true "q8_0")
       "out-final" start).2
  = [] ∧
  (main_convert_and_report
     (Sample.sql_world (Sample.machine "Linux" "x86_64" [] 1) false true)
     (Args.Make 3 4 (2 # 100000) "out" None None false "Qwen/Qwen3-0.6B" (1 # 10)
        true "q8_0")
     "out-final" start).1
  = Ok ().
Proof.
  rewrite (no_gguf_skips_conversion
             (Sample.sql_world (Sample.machine "Linux" "x86_64" [] 1) false true)
             (Args.Make 3 4 (2 # 100000) "out" None None false "Qwen/Qwen3-0.6B" (1 # 10)
                true "q8_0")
             "out-final" start eq_refl).
  split; reflexivity.
Defined.

(** X15.  The Docker probe itself can end the conversion: when the
    [docker] executable cannot be started, the probe raises
    [FileNotFoundError] before the local-script branch is chosen, the
    handler of [main] does not catch it, and the run ends with exit
    status 1 without a summary. *)
Theorem conversion_needs_docker_executable (w : world) (args : Args.t)
    (final_path : string) (s : io lib_call) :
  Args.no_gguf args = false →
  fails w (Makedirs (dirname (os w) (abspath (os w) (final_path +:+ ".gguf")))) = None →
  spawn (os w) ["docker"; "--version"] [] = None →
  ∃ msg,
    main_convert_and_report w args final_path s
    = (Raise (Raised FileNotFoundError msg),
       extended s (printed [""; "Converting to GGUF format..."]) []
         [ Makedirs (dirname (os w) (abspath (os w) (final_path +:+ ".gguf")));
           Spawn ["docker"; "--version"] [] ]) ∧
    exit_status (main_convert_and_report w args final_path s).1 = 1.
Proof.
  intros Hgguf Hmk Hprobe. exists "docker".
  assert (main_convert_and_report w args final_path s
          = (Raise (Raised FileNotFoundError "docker"),
             extended s (printed [""; "Converting to GGUF format..."]) []
               [ Makedirs (dirname (os w) (abspath (os w) (final_path +:+ ".gguf")));
                 Spawn ["docker"; "--version"] [] ])) as Hmain.
  { unfold main_convert_and_report. rewrite Hgguf. cbn [negb]. cbv zeta.
    apply run_bind_raise. run_io.
    apply try_except_not_caught; [|done].
    apply run_bind_raise. unfold convert_to_gguf. cbv zeta.
    rewrite (run_bind_ok _ _ _ _ _ (run_perform_ok _ _ _ Hmk)).
    apply run_bind_raise.
    rewrite run_process_run, Hprobe.
    by rewrite !after_extended, !extended_extended. }
  by rewrite Hmain.
Qed.

Lemma conversion_needs_docker_executable_witness :
  ∃ msg,
    main_convert_and_report
      (sql_world_with
         (machine_with "Darwin" "arm64" (λ path, false)
            (λ cmd, if bool_decide (head cmd = Some "docker") then None
                    else Some (finished [] [] 0)))
         (λ a, None) [] (λ line, Ok JNull) (Ok ∅))
      (parse_args (DeviceInfo.Make "mps" false false 2 true)
         (Sample.sql_cli None None false))
      "out-final" start
    = (Raise (Raised FileNotFoundError msg),
       extended start (printed [""; "Converting to GGUF format..."]) []
         [ Makedirs "/repo/out"; Spawn ["docker"; "--version"] [] ]) ∧
    exit_status
      (main_convert_and_report
         (sql_world_with
            (machine_with "Darwin" "arm64" (λ path, false)
               (λ cmd, if bool_decide (head cmd = Some "docker") then None
                       else Some (finished [] [] 0)))
            (λ a, None) [] (λ line, Ok JNull) (Ok ∅))
         (parse_args (DeviceInfo.Make "mps" false false 2 true)
            (Sample.sql_cli None None false))
         "out-final" start).1
    = 1.
Proof.
  exact (conversion_needs_docker_executable
           (sql_world_with
              (machine_with "Darwin" "arm64" (λ path, false)
                 (λ cmd, if bool_decide (head cmd = Some "docker") then None
                         else Some (finished [] [] 0)))
              (λ a, None) [] (λ line, Ok JNull) (Ok ∅))
           (parse_args (DeviceInfo.Make "mps" false false 2 true)
              (Sample.sql_cli None None false))
           "out-final" start eq_refl eq_refl eq_refl).
Defined.

End conversion_properties.

(** ** What the runs request from the outside world *)
Section requests.
Import Py Run Data Notions Outlook.



(** X17.  Every split either script requests uses seed 42 and the
    [--eval-split] fraction, 0.1 when the option is absent, whatever
    the machine, the dataset source and the other options. *)
Theorem splits_use_seed_42 :
  (∀ w cli,
     only_performs
       (λ a, match a with
             | Lib (FinetuneSql.TrainTestSplit _ test_size seed) =>
                 seed = 42 ∧ test_size = default (1 # 10) (FinetuneSql.Cli.eval_split cli)
             | _ => True
             end)
       (FinetuneSql.main w cli)) ∧
  (∀ w cli,
     only_performs
       (λ a, match a with
             | Lib (FinetuneMlx.TrainTestSplit _ test_size seed) =>
                 seed = 42 ∧ test_size = default (1 # 10) (FinetuneMlx.Cli.eval_split cli)
             | _ => True
             end)
       (FinetuneMlx.main w cli)).
Proof.
  split.
  - intros w cli.
    unfold FinetuneSql.main, FinetuneSql.main_train, FinetuneSql.main_convert_and_report,
      FinetuneSql.convert_to_gguf, FinetuneSql._run_with_filtered_stderr,
      FinetuneSql.get_convert_script, run_process, FinetuneSql.load_jsonl_dataset,
      FinetuneSql.load_hf_dataset, FinetuneSql.load_local_dataset,
      FinetuneSql.map_format_for_sft.
    repeat only_performs_step; done.
  - intros w cli.
    unfold FinetuneMlx.main, FinetuneMlx.main_prepare_and_train,
      FinetuneMlx.main_fuse_and_report, FinetuneMlx.check_apple_silicon,
      FinetuneMlx.prepare_data, FinetuneMlx.prepare_data_load,
      FinetuneMlx.run_training, FinetuneMlx.fuse_and_export,
      subprocess_run_check, run_process.
    repeat only_performs_step; done.
Qed.

End requests.

(** ** The adapter script: platform check, data files, training, fusing *)
Section adapter_properties.
Import Py Run Data Notions Outlook FinetuneMlx.

(** X18.  On macOS the platform check never ends the run: it returns
    after printing nothing on an ARM machine (arm64 or aarch64) and
    after printing a seven-line warning on any other machine. *)
Theorem check_apple_silicon_on_macos (w : world) (s : io lib_call) :
  platform_system (os w) = "Darwin" →
  check_apple_silicon w s
  = (Ok (),
     extended s
       (printed
          (if bool_decide (platform_machine (os w) ∈ ["arm64"; "aarch64"]) then []
           else [ str_mul "=" 60;
                  "WARNING: Not running on Apple Silicon";
                  str_mul "=" 60;
                  "";
                  "MLX works best on Apple Silicon (M1/M2/M3/M4).";
                  "Performance on Intel Macs will be limited.";
                  "" ]))
       [] []).
Proof.
  intros Hsys. unfold check_apple_silicon. rewrite Hsys.
  change (String.eqb "Darwin" "Darwin") with true. cbn [negb].
  rewrite run_ret_bind.
  destruct (bool_decide (platform_machine (os w) ∈ ["arm64"; "aarch64"])); cbn [negb].
  - rewrite run_ret. by rewrite extended_nil.
  - run_io. done.
Qed.

Lemma check_apple_silicon_on_macos_witness :
  check_apple_silicon
    (Sample.mlx_world (Sample.machine "Darwin" "x86_64" [] 0)) start
  = (Ok (),
     extended start
       (printed [ str_mul "=" 60;
                  "WARNING: Not running on Apple Silicon";
                  str_mul "=" 60;
                  "";
                  "MLX works best on Apple Silicon (M1/M2/M3/M4).";
                  "Performance on Intel Macs will be limited.";
                  "" ])
       [] []).
Proof.
  exact (check_apple_silicon_on_macos
           (Sample.mlx_world (Sample.machine "Darwin" "x86_64" [] 0)) start eq_refl).
Defined.

Lemma subprocess_run_check_run {X} (h : host) cmd p (s : io X) :
  spawn h cmd [] = Some p →
  subprocess_run_check h cmd s
  = (if Z.eqb (proc_returncode p) 0 then Ok ()
     else Raise (CalledProcessError (proc_returncode p) cmd),
     after s [Spawn cmd []]).
Proof.
  intros Hp. unfold subprocess_run_check.
  rewrite run_bind, run_process_run, Hp.
  by destruct (Z.eqb (proc_returncode p) 0).
Qed.

(** X19.  The training step starts the adapter trainer with the
    model, data directory, adapter path [<output-dir>/adapters],
    iteration count, batch size, learning rate and layer count of the
    run.  It returns the adapter path when the trainer exits with 0 and
    raises [CalledProcessError] with the exit code and command line
    otherwise. *)
Theorem run_training_checks_exit_code (w : world) (args : Args.t) (data_dir : string)
    (p : process) (s : io lib_call) :
  spawn (os w) (training_command w args data_dir) [] = Some p →
  run_training w (Args.model args) data_dir (Args.output_dir args) (Args.iters args)
    (Args.batch_size args) (Args.lr args) (Args.num_layers args) s
  = (if Z.eqb (proc_returncode p) 0
     then Ok (path_join (Args.output_dir args) "adapters")
     else Raise (CalledProcessError (proc_returncode p)
                   (training_command w args data_dir)),
     extended s
       (printed [""; "Running: " +:+ join " " (training_command w args data_dir); ""])
       [] [Spawn (training_command w args data_dir) []]).
Proof.
  intros Hp. unfold run_training. cbv zeta.
  fold (training_command w args data_dir).
  run_io. rewrite run_bind, (subprocess_run_check_run _ _ _ _ Hp).
  rewrite after_extended, extended_extended.
  by destruct (Z.eqb (proc_returncode p) 0).
Qed.

Lemma run_training_checks_exit_code_witness :
  (run_training
     (Sample.mlx_world (Sample.machine "Darwin" "arm64" ["out of memory"] 1))
     "Qwen/Qwen3-0.5B" "out/data" "out" 1000 4 (1 # 100000) 16 start).1
  = Raise
      (CalledProcessError 1
         [ "/usr/bin/python3"; "-m"; "mlx_lm.lora";
           "--model"; "Qwen/Qwen3-0.5B";
           "--train";
           "--data"; "out/data";
           "--adapter-path"; "out/adapters";
           "--iters"; "1000";
           "--batch-size"; "4";
           "--learning-rate"; "0.1";
           "--num-layers"; "16" ]).
Proof.
  exact (f_equal fst
           (run_training_checks_exit_code
              (Sample.mlx_world (Sample.machine "Darwin" "arm64" ["out of memory"] 1))
              (Args.Make 1000 4 (1 # 100000) "out" None false "Qwen/Qwen3-0.5B" 16
                 (1 # 10) false)
              "out/data" (finished [] ["out of memory"] 1) start eq_refl)).
Defined.

Lemma fuse_and_export_run (w : world) (model adapter_path output_dir : string)
    (export_gguf : bool) (p : process) (s : io lib_call) :
  spawn (os w) (fuse_command_for w model adapter_path output_dir export_gguf) []
  = Some p →
  fuse_and_export w model adapter_path output_dir export_gguf s
  = (if Z.eqb (proc_returncode p) 0
     then Ok (path_join output_dir "fused_model",
              if export_gguf
                 && path_exists (os w)
                      (path_join (path_join output_dir "fused_model") "ggml-model-f16.gguf")
              then Some (path_join (path_join output_dir "fused_model")
                           "ggml-model-f16.gguf")
              else None)
     else Raise (CalledProcessError (proc_returncode p)
                   (fuse_command_for w model adapter_path output_dir export_gguf)),
     extended s
       (printed [ "";
                  "Running: " +:+ join " "
                    (fuse_command_for w model adapter_path output_dir export_gguf);
                  "" ])
       [] [Spawn (fuse_command_for w model adapter_path output_dir export_gguf) []]).
Proof.
  intros Hp. unfold fuse_and_export. cbv zeta.
  assert ((if export_gguf
           then [sys_executable (os w); "-m"; "mlx_lm.fuse"; "--model"; model;
                 "--adapter-path"; adapter_path; "--save-path";
                 path_join output_dir "fused_model"] ++ ["--export-gguf"]
           else [sys_executable (os w); "-m"; "mlx_lm.fuse"; "--model"; model;
                 "--adapter-path"; adapter_path; "--save-path";
                 path_join output_dir "fused_model"])
          = fuse_command_for w model adapter_path output_dir export_gguf) as ->.
  { unfold fuse_command_for. destruct export_gguf; [done|]. by rewrite app_nil_r. }
  run_io. rewrite run_bind, (subprocess_run_check_run _ _ _ _ Hp).
  rewrite after_extended, extended_extended.
  destruct (Z.eqb (proc_returncode p) 0); [|done].
  rewrite run_ret. by destruct export_gguf, (path_exists _ _).
Qed.

(** X20.  The fuse step passes [--export-gguf] exactly when export is
    requested.  When the fuse subprocess exits with 0 it returns
    [<output-dir>/fused_model] and, as GGUF path, the file
    [ggml-model-f16.gguf] in that directory when export was requested
    and the file exists, and [None] otherwise; the file is not looked
    for when export was not requested.  A non-zero exit raises
    [CalledProcessError]. *)
Theorem fuse_and_export_outcomes (w : world) (model adapter_path output_dir : string)
    (export_gguf : bool) (p : process) (s : io lib_call) :
  spawn (os w) (fuse_command_for w model adapter_path output_dir export_gguf) []
  = Some p →
  fuse_and_export w model adapter_path output_dir export_gguf s
  = (if Z.eqb (proc_returncode p) 0
     then Ok (path_join output_dir "fused_model",
              if export_gguf
                 && path_exists (os w)
                      (path_join (path_join output_dir "fused_model") "ggml-model-f16.gguf")
              then Some (path_join (path_join output_dir "fused_model")
                           "ggml-model-f16.gguf")
              else None)
     else Raise (CalledProcessError (proc_returncode p)
                   (fuse_command_for w model adapter_path output_dir export_gguf)),
     extended s
       (printed [ "";
                  "Running: " +:+ join " "
                    (fuse_command_for w model adapter_path output_dir export_gguf);
                  "" ])
       [] [Spawn (fuse_command_for w model adapter_path output_dir export_gguf) []]).
Proof. apply fuse_and_export_run. Qed.

Lemma fuse_and_export_outcomes_witness :
  (fuse_and_export
     (Sample.mlx_world
        (machine_with "Darwin" "arm64"
           (λ path, String.eqb path "out/fused_model/ggml-model-f16.gguf")
           (λ cmd, Some (finished [] [] 0))))
     "Qwen/Qwen3-0.5B" "out/adapters" "out" true start).1
  = Ok ("out/fused_model", Some "out/fused_model/ggml-model-f16.gguf") ∧
  (fuse_and_export
     (Sample.mlx_world
        (machine_with "Darwin" "arm64"
           (λ path, String.eqb path "out/fused_model/ggml-model-f16.gguf")
           (λ cmd, Some (finished [] [] 0))))
     "Qwen/Qwen3-0.5B" "out/adapters" "out" false start).1
  = Ok ("out/fused_model", None).
Proof.
  rewrite !(fuse_and_export_outcomes
              (Sample.mlx_world
                 (machine_with "Darwin" "arm64"
                    (λ path, String.eqb path "out/fused_model/ggml-model-f16.gguf")
                    (λ cmd, Some (finished [] [] 0))))
              "Qwen/Qwen3-0.5B" "out/adapters" "out" _ (finished [] [] 0) start eq_refl).
  split; reflexivity.
Defined.



Lemma gguf_probe_truthy (fused_path : string) :
  truthy_str (Some (path_join fused_path "ggml-model-f16.gguf")) = true.
Proof.
  unfold path_join. cbn [String.prefix].
  destruct (String.eqb fused_path "" || _); by destruct fused_path.
Qed.

(** X22.  The last step of the adapter script follows the fuse
    subprocess and the probe.  A non-zero exit of the fuse subprocess
    raises [CalledProcessError] and no summary is printed.  After an
    exit with 0 the summary lists the adapter and fused-model paths; it
    shows the GGUF file with the LMStudio and Ollama commands when
    export was requested and the file exists, and the MLX generate
    command otherwise.  With [--no-gguf] a file already lying in the
    fused-model directory is not reported. *)
Theorem main_fuse_and_report_by_outcome (w : world) (args : Args.t)
    (adapter_path : string) (p : process) (s : io lib_call) :
  let export_gguf := negb (Args.no_gguf args) in
  let cmd := fuse_command_for w (Args.model args) adapter_path (Args.output_dir args)
               export_gguf in
  let fused_path := path_join (Args.output_dir args) "fused_model" in
  let gguf_path :=
    if export_gguf && path_exists (os w) (path_join fused_path "ggml-model-f16.gguf")
    then Some (path_join fused_path "ggml-model-f16.gguf") else None in
  let heading :=
    [ "";
      str_mul "=" 40;
      "Step 3: Fusing adapters" +:+ (if export_gguf then " and exporting GGUF" else "");
      str_mul "=" 40;
      "";
      "Running: " +:+ join " " cmd;
      "" ] in
  spawn (os w) cmd [] = Some p →
  main_fuse_and_report w args adapter_path s
  = if Z.eqb (proc_returncode p) 0 then
      (Ok (),
       extended s
         (printed
            (heading
             ++ [ "";
                  str_mul "=" 60;
                  "Training complete!";
                  str_mul "=" 60;
                  "";
                  "Adapters:    " +:+ abspath (os w) adapter_path;
                  "Fused model: " +:+ abspath (os w) fused_path ]
             ++ match gguf_path with
                | Some gguf => ["GGUF model:  " +:+ abspath (os w) gguf]
                | None => []
                end
             ++ [ ""; "Next steps - Use your fine-tuned model:"; "" ]
             ++ match gguf_path with
                | Some gguf =>
                    [ "  LMStudio:";
                      "    lms import " +:+ abspath (os w) gguf
                        +:+ " --user-repo local/qwen3-sql-mlx";
                      "    lms load local/qwen3-sql-mlx --gpu max";
                      "";
                      "  Ollama:";
                      "    echo 'FROM " +:+ abspath (os w) gguf +:+ "' > Modelfile";
                      "    ollama create qwen3-sql-mlx -f Modelfile";
                      "    ollama run qwen3-sql-mlx" ]
                | None =>
                    [ "  Generate with MLX:";
                      "    mlx_lm.generate --model " +:+ fused_path
                        +:+ " --prompt 'Your prompt'" ]
                end
             ++ [ "" ]))
         [] [Spawn cmd []])
    else
      (Raise (CalledProcessError (proc_returncode p) cmd),
       extended s (printed heading) [] [Spawn cmd []]).
Proof.
  intros export_gguf cmd fused_path gguf_path heading Hp.
  unfold main_fuse_and_report. run_io.
  rewrite run_bind, (fuse_and_export_run _ _ _ _ _ _ _ Hp).
  fold export_gguf cmd fused_path. rewrite extended_extended.
  destruct (Z.eqb (proc_returncode p) 0); [|by destruct export_gguf].
  fold gguf_path. subst gguf_path.
  destruct (export_gguf && path_exists (os w) (path_join fused_path "ggml-model-f16.gguf")).
  - run_io. rewrite gguf_probe_truthy. cbn [default]. cbv beta iota.
    run_io. by destruct export_gguf.
  - cbn [truthy_str]. cbv beta iota. run_io. by destruct export_gguf.
Qed.

Lemma main_fuse_and_report_by_outcome_witness :
  (main_fuse_and_report
     (Sample.mlx_world
        (machine_with "Darwin" "arm64"
           (λ path, String.eqb path "out/fused_model/ggml-model-f16.gguf")
           (λ cmd, Some (finished [] [] 0))))
     (Args.Make 1000 4 (1 # 100000) "out" None false "Qwen/Qwen3-0.5B" 16 (1 # 10) true)
     "out/adapters" start).1
  = Ok () ∧
  stdout
    (main_fuse_and_report
       (Sample.mlx_world
          (machine_with "Darwin" "arm64"
             (λ path, String.eqb path "out/fused_model/ggml-model-f16.gguf")
             (λ cmd, Some (finished [] [] 0))))
       (Args.Make 1000 4 (1 # 100000) "out" None false "Qwen/Qwen3-0.5B" 16 (1 # 10) true)
       "out/adapters" start).2
  = printed
      [ "";
        str_mul "=" 40;
        "Step 3: Fusing adapters";
        str_mul "=" 40;
        "";
        "Running: /usr/bin/python3 -m mlx_lm.fuse --model Qwen/Qwen3-0.5B --adapter-path out/adapters --save-path out/fused_model";
        "";
        "";
        str_mul "=" 60;
        "Training complete!";
        str_mul "=" 60;
        "";
        "Adapters:    out/adapters";
        "Fused model: out/fused_model";
        "";
        "Next steps - Use your fine-tuned model:";
        "";
        "  Generate with MLX:";
        "    mlx_lm.generate --model out/fused_model --prompt 'Your prompt'";
        "" ].
Proof.
  pose proof (main_fuse_and_report_by_outcome
                (Sample.mlx_world
                   (machine_with "Darwin" "arm64"
                      (λ path, String.eqb path "out/fused_model/ggml-model-f16.gguf")
                      (λ cmd, Some (finished [] [] 0))))
                (Args.Make 1000 4 (1 # 100000) "out" None false "Qwen/Qwen3-0.5B" 16
                   (1 # 10) true)
                "out/adapters" (finished [] [] 0) start) as H.
  cbv zeta in H. rewrite (H eq_refl). split; vm_compute; reflexivity.
Defined.

End adapter_properties.
